(** * Edge Study Buddy: the session transcript lifecycle of [src/index.ts]

    A shallow embedding of the chat handler of the worker ([fetch],
    [handleChat], [loadHistory], [saveHistory], [sessionKey],
    [trimHistory], [json], [handleOptions]) and the properties of the
    transcript it keeps in Workers KV.

    Modelling choices, in one place:

    - A JavaScript value is a [value]: [undefined], [null], booleans,
      numbers, strings, arrays and plain objects. Numbers carry an integer;
      the handler only ever observes whether a number is zero and that it
      is not a string.
    - A JavaScript string is a Rocq [string] read as a sequence of code
      units below 256, so that [trim] strips exactly the ECMAScript white
      space and line terminators of that range.
    - A piece of text is seen through [JSON.parse]: [NotJson s] is the text
      [s], which [JSON.parse] rejects; [Json v] is a text that [JSON.parse]
      maps to [v]. [JSON.stringify] produces the [Json] text of the value
      with [undefined] treated as the language prescribes.
    - The two collaborators are explicit: the KV namespace is a finite map
      from keys to texts inside the [world], the inference binding is a
      function from the arguments of [env.AI.run] to an outcome. Every
      collaborator call is appended to the [calls] log of the [world].
      The KV namespace is reliable: [get] and [put] do not throw. An entry
      that reaches its expiry is a step of its own ([step_expire]).
    - Exceptions and state are threaded by the monad [M]. *)

From Stdlib Require Import ZArith QArith Ascii.
From stdpp Require Import gmap strings list fin_maps pretty relations.

Local Open Scope Z_scope.
Local Open Scope string_scope.
Local Open Scope list_scope.

(** ** JavaScript values *)

#[warnings="-register-all"]
Inductive value : Type :=
  | VUndef
  | VNull
  | VBool (b : bool)
  | VNum (n : Z)
  | VStr (s : string)
  | VArr (l : list value)
  | VObj (m : gmap string value).

(** [!v] is [negb (truthy v)]. *)
Definition truthy (v : value) : bool :=
  match v with
  | VUndef | VNull => false
  | VBool b => b
  | VNum n => negb (n =? 0)%Z
  | VStr s => negb (String.eqb s "")
  | VArr _ | VObj _ => true
  end.

Definition typeof (v : value) : string :=
  match v with
  | VUndef => "undefined"
  | VBool _ => "boolean"
  | VNum _ => "number"
  | VStr _ => "string"
  | VNull | VArr _ | VObj _ => "object"
  end.

(** [a ?? b] *)
Definition nullish_or (a b : value) : value :=
  match a with
  | VUndef | VNull => b
  | _ => a
  end.

Definition Array_isArray (v : value) : bool :=
  match v with
  | VArr _ => true
  | _ => false
  end.

(** ** Strings: [String.prototype.trim] *)

Definition is_space (a : ascii) : bool :=
  match nat_of_ascii a with
  | 9%nat | 10%nat | 11%nat | 12%nat | 13%nat | 32%nat | 160%nat => true
  | _ => false
  end.

Fixpoint trimStart (s : string) : string :=
  match s with
  | EmptyString => EmptyString
  | String a s' => if is_space a then trimStart s' else s
  end.

Fixpoint trimEnd (s : string) : string :=
  match s with
  | EmptyString => EmptyString
  | String a s' =>
      match trimEnd s' with
      | EmptyString => if is_space a then EmptyString else String a EmptyString
      | r => String a r
      end
  end.

Definition trim (s : string) : string := trimEnd (trimStart s).

(** ** Arrays: [Array.prototype.slice] with one argument *)

Definition slice {A} (l : list A) (start : Z) : list A :=
  let len := Z.of_nat (length l) in
  let k := if (start <? 0)%Z then Z.max (len + start) 0 else Z.min start len in
  drop (Z.to_nat k) l.

(** ** Constants of the module *)

Definition SYSTEM_PROMPT : string :=
"
You are Edge Study Buddy, a friendly but concise study assistant.
- Keep answers focused and structured.
- When user asks to review or continue, use context from previous messages.
- If the user is studying security / systems / AI, tailor examples to that.
".

Definition MAX_HISTORY_MESSAGES : Z := 16.

(** ** [trimHistory] *)

Definition trimHistory (history : list value) (maxMessages : Z) : list value :=
  if (Z.of_nat (length history) <=? maxMessages + 1)%Z then history
  else
    let systemMessage := nth 0 history VUndef in
    let rest := slice history 1 in
    let trimmedRest := slice rest (- maxMessages) in
    systemMessage :: trimmedRest.

(** ** Texts, [JSON.parse] and [JSON.stringify] *)

Inductive text : Type :=
  | NotJson (s : string)
  | Json (v : value).

(** What [JSON.stringify] makes of a value, as the value its output parses
    back to: [None] where the language omits the value ([undefined] at top
    level or as a property), [null] for an [undefined] array element. *)
Fixpoint to_json (v : value) : option value :=
  match v with
  | VUndef => None
  | VArr l => Some (VArr (map (fun x => default VNull (to_json x)) l))
  | VObj m => Some (VObj (omap to_json m))
  | _ => Some v
  end.

Definition JSON_stringify (v : value) : option text := Json <$> to_json v.

Inductive exn : Type :=
  | SyntaxError
  | TypeError
  | Failure (reason : string).

Definition JSON_parse (t : text) : exn + value :=
  match t with
  | NotJson _ => inl SyntaxError
  | Json v => inr v
  end.

(** Property read [v.k], for the names this module reads ([sessionId],
    [message], [response]): none of them is a property of a primitive or
    of an array, and reading a property of [null] or [undefined] throws. *)
Definition get (v : value) (k : string) : exn + value :=
  match v with
  | VUndef | VNull => inl TypeError
  | VObj m => inr (default VUndef (m !! k))
  | _ => inr VUndef
  end.

(** ** The world: KV namespace, collaborator log, console *)

Record ai_inputs : Type := AiInputs {
  messages : list value;
  max_tokens : Z;
  temperature : Q
}.

Inductive call : Type :=
  | KvGet (key : string)
  | KvPut (key : string) (val : text) (expirationTtl : Z)
  | AiRun (model : string) (inputs : ai_inputs).

Record world : Type := World {
  kv : gmap string text;
  calls : list call;
  console : list (string * exn)
}.

(** The bindings of a request: the inference backend, as a function of the
    arguments of [run]. The KV namespace lives in the [world]. *)
Record Env : Type := MkEnv {
  AI : string -> ai_inputs -> exn + value
}.

(** ** The monad of handlers: state and exceptions *)

Definition M (A : Type) : Type := world -> (exn + A) * world.

Definition ret {A} (a : A) : M A := fun w => (inr a, w).

Definition throw {A} (e : exn) : M A := fun w => (inl e, w).

Definition bind {A B} (c : M A) (k : A -> M B) : M B :=
  fun w =>
    match c w with
    | (inr a, w') => k a w'
    | (inl e, w') => (inl e, w')
    end.

Definition try_catch {A} (c : M A) (handler : exn -> M A) : M A :=
  fun w =>
    match c w with
    | (inr a, w') => (inr a, w')
    | (inl e, w') => handler e w'
    end.

Definition lift {A} (r : exn + A) : M A := fun w => (r, w).

Notation "'let!' x ':=' c 'in' k" := (bind c (fun x => k))
  (at level 10, x name, c at level 100, k at level 200).
Notation "'do!' c 'in' k" := (bind c (fun _ => k))
  (at level 10, c at level 100, k at level 200).

(** [env.CHAT_KV.get(key)]: the stored text, or [None] for [null]. *)
Definition CHAT_KV_get (key : string) : M (option text) :=
  fun w => (inr (kv w !! key),
            World (kv w) (calls w ++ [KvGet key]) (console w)).

(** [env.CHAT_KV.put(key, val, { expirationTtl })] *)
Definition CHAT_KV_put (key : string) (val : text) (expirationTtl : Z) : M unit :=
  fun w => (inr tt,
            World (<[key := val]> (kv w))
                  (calls w ++ [KvPut key val expirationTtl]) (console w)).

(** [env.AI.run(model, inputs)] *)
Definition AI_run (env : Env) (model : string) (inputs : ai_inputs) : M value :=
  fun w => (AI env model inputs,
            World (kv w) (calls w ++ [AiRun model inputs]) (console w)).

Definition console_error (label : string) (err : exn) : M unit :=
  fun w => (inr tt, World (kv w) (calls w) (console w ++ [(label, err)])).

(** ** Requests and responses *)

Record Request : Type := MkRequest {
  method : string;
  pathname : string;
  body : text
}.

Record Response : Type := MkResponse {
  payload : option text;
  status : Z;
  headers : list (string * string)
}.

(** [request.json()] *)
Definition Request_json (request : Request) : M value :=
  lift (JSON_parse (body request)).

(** ** Utils *)

Definition json (data : value) (status : Z) : Response :=
  MkResponse (JSON_stringify data) status
    [ ("content-type", "application/json; charset=utf-8");
      ("access-control-allow-origin", "*");
      ("access-control-allow-headers", "Content-Type");
      ("access-control-allow-methods", "POST,OPTIONS") ].

Definition handleOptions : Response :=
  MkResponse None 204
    [ ("access-control-allow-origin", "*");
      ("access-control-allow-headers", "Content-Type");
      ("access-control-allow-methods", "POST,OPTIONS") ].

(** ** Memory helpers *)

Definition sessionKey (sessionId : string) : string := String.append "session:" sessionId.

(** The test [!raw] holds for a missing entry ([null]) and for the empty
    text; [Array.isArray(parsed)] is the match on [VArr]. *)
Definition loadHistory (env : Env) (sessionId : string) : M (list value) :=
  let! raw := CHAT_KV_get (sessionKey sessionId) in
  match raw with
  | None | Some (NotJson "") => ret []
  | Some t =>
      try_catch
        (let! parsed := lift (JSON_parse t) in
         match parsed with
         | VArr l => ret l
         | _ => ret []
         end)
        (fun _ => ret [])
  end.

Definition saveHistory (env : Env) (sessionId : string) (history : list value) : M unit :=
  match JSON_stringify (VArr history) with
  | Some t => CHAT_KV_put (sessionKey sessionId) t (60 * 60 * 24 * 7)
  | None => throw TypeError
  end.

(** ** API handler *)

(** The object literal [{ role, content }]. *)
Definition ChatMessage (role : string) (content : value) : value :=
  VObj {[ "role" := VStr role; "content" := content ]}.

Definition handleChat (request : Request) (env : Env) : M Response :=
  try_catch
    (let! body := Request_json request in
     let! sessionId_v := lift (get body "sessionId") in
     if negb (truthy sessionId_v) || negb (String.eqb (typeof sessionId_v) "string")
     then ret (json (VObj {[ "error" := VStr "Missing or invalid sessionId" ]}) 400)
     else
     let! message_v := lift (get body "message") in
     if negb (truthy message_v) || negb (String.eqb (typeof message_v) "string")
     then ret (json (VObj {[ "error" := VStr "Missing or invalid message" ]}) 400)
     else
     match sessionId_v, message_v with
     | VStr sessionId, VStr message =>
         let userMessage := trim message in
         let! history := loadHistory env sessionId in
         let history :=
           if (length history =? 0)%nat
           then history ++ [ChatMessage "system" (VStr (trim SYSTEM_PROMPT))]
           else history in
         let history := history ++ [ChatMessage "user" (VStr userMessage)] in
         let history := trimHistory history MAX_HISTORY_MESSAGES in
         let! aiResponse :=
           AI_run env "@cf/meta/llama-3.3-70b-instruct-fp8-fast"
             (AiInputs history 512 (4 # 10)) in
         let! response := lift (get aiResponse "response") in
         let replyText := nullish_or response (VStr "[no response]") in
         let history := history ++ [ChatMessage "assistant" replyText] in
         do! saveHistory env sessionId history in
         ret (json (VObj {[ "reply" := replyText; "history" := VArr history ]}) 200)
     | _, _ => throw TypeError (* excluded by the two [typeof] tests *)
     end)
    (fun err =>
       do! console_error "Chat error" err in
       ret (json (VObj {[ "error" := VStr "Internal error" ]}) 500)).

(** ** The worker's [fetch] *)

Section Worker.

(** The page served at [/]; its markup is not part of the model. *)
Variable CHAT_HTML : string.

Definition fetch (request : Request) (env : Env) : M Response :=
  if String.eqb (method request) "OPTIONS" then ret handleOptions
  else if String.eqb (pathname request) "/" && String.eqb (method request) "GET"
  then ret (MkResponse (Some (NotJson CHAT_HTML)) 200
              [("content-type", "text/html; charset=utf-8")])
  else if String.eqb (pathname request) "/api/chat" && String.eqb (method request) "POST"
  then handleChat request env
  else ret (MkResponse (Some (NotJson "Not found")) 404 []).

End Worker.

(** ** Vocabulary of the statements *)

(** The role and the content of a turn, as the backend reads them. *)
Definition turn_role (t : value) : option string :=
  match t with
  | VObj m =>
      match m !! "role" with
      | Some (VStr r) => Some r
      | _ => None
      end
  | _ => None
  end.

Definition turn_content (t : value) : value :=
  match t with
  | VObj m => default VUndef (m !! "content")
  | _ => VUndef
  end.

Definition is_instruction (t : value) : bool :=
  match turn_role t with
  | Some r => String.eqb r "system"
  | None => false
  end.

(** A transcript that starts with its only instruction turn. *)
Definition seeded (h : list value) : Prop :=
  exists first rest,
    h = first :: rest /\
    is_instruction first = true /\
    Forall (fun t => is_instruction t = false) rest.

(** Every entry of the store is the text of a seeded transcript. *)
Definition store_seeded (m : gmap string text) : Prop :=
  forall key t, m !! key = Some t -> exists h, t = Json (VArr h) /\ seeded h.

(** Non-empty text, what the data model asks of a turn's content. *)
Definition nonempty_text (v : value) : bool :=
  match v with
  | VStr (String _ _) => true
  | _ => false
  end.

(** A well-formed turn of the data model: a role of the closed set and a
    non-empty text. *)
Definition well_formed_turn (t : value) : bool :=
  match turn_role t with
  | Some r =>
      (String.eqb r "system" || String.eqb r "user" || String.eqb r "assistant")
      && nonempty_text (turn_content t)
  | None => false
  end.

(** A stored entry that parses into a well-formed sequence of turns. *)
Definition well_formed_transcript (raw : option text) : bool :=
  match raw with
  | Some (Json (VArr l)) => forallb well_formed_turn l
  | _ => false
  end.

(** A stored entry the loader cannot use: absent, not JSON, or JSON that is
    not an array. *)
Definition unusable (raw : option text) : bool :=
  match raw with
  | None | Some (NotJson _) => true
  | Some (Json v) => negb (Array_isArray v)
  end.

(** The transcript [loadHistory] makes of the entry of a session. *)
Definition stored_history (raw : option text) : list value :=
  match raw with
  | Some (Json (VArr l)) => l
  | _ => []
  end.

(** An array element as [JSON.stringify] writes it. *)
Definition json_elem (v : value) : value := default VNull (to_json v).

(** The messages sent to the backend for a loaded transcript and a trimmed
    user message: seeding, appending and windowing of [handleChat]. *)
Definition context_window (loaded : list value) (userMessage : string) : list value :=
  trimHistory
    ((if (length loaded =? 0)%nat
      then loaded ++ [ChatMessage "system" (VStr (trim SYSTEM_PROMPT))]
      else loaded)
     ++ [ChatMessage "user" (VStr userMessage)])
    MAX_HISTORY_MESSAGES.

Definition MODEL : string := "@cf/meta/llama-3.3-70b-instruct-fp8-fast".

Definition TTL : Z := 604800.

Definition bad_request (reason : string) : Response :=
  json (VObj {[ "error" := VStr reason ]}) 400.

Definition internal_error : Response :=
  json (VObj {[ "error" := VStr "Internal error" ]}) 500.

(** A field the handler accepts: a string that is not empty. *)
Definition accepted (v : value) : bool :=
  match v with
  | VStr (String _ _) => true
  | _ => false
  end.

(** The field [k] of a parsed payload; [undefined] when it is missing. *)
Definition field (b : value) (k : string) : value :=
  match b with
  | VObj m => default VUndef (m !! k)
  | _ => VUndef
  end.

(** A parsed payload whose properties can be read: anything but [null]. *)
Definition has_fields (b : value) : bool :=
  match b with
  | VNull | VUndef => false
  | _ => true
  end.

(** A request the handler accepts, with its session and its raw message. *)
Definition accepted_request (request : Request) (sessionId message : string) : Prop :=
  exists b,
    body request = Json b /\
    get b "sessionId" = inr (VStr sessionId) /\ sessionId <> "" /\
    get b "message" = inr (VStr message) /\ message <> "".

(** The collaborator calls made between two worlds. *)
Definition new_calls (w w' : world) : list call :=
  drop (length (calls w)) (calls w').

(** A chat request as the page sends it. *)
Definition chat_request (sessionId message : string) : Request :=
  MkRequest "POST" "/api/chat"
    (Json (VObj {[ "sessionId" := VStr sessionId; "message" := VStr message ]})).

(** ** Runs of the worker *)

Definition initial : world := World ∅ [] [].

(** One step of the system: the worker answers a request, or a stored
    entry reaches its expiry. *)
Inductive step : world -> world -> Prop :=
  | step_fetch html request env r w w' :
      fetch html request env w = (inr r, w') -> step w w'
  | step_expire key w :
      step w (World (delete key (kv w)) (calls w) (console w)).

Definition reachable (w : world) : Prop := rtc step initial w.

(** A successful chat turn on one session. *)
Definition session_turn (sessionId : string) (w w' : world) : Prop :=
  exists request message env r,
    accepted_request request sessionId message /\
    handleChat request env w = (inr r, w') /\
    status r = 200.

(** The reply text of the backend for given inputs: the [response]
    property of what [run] returns, or the exception of either step. *)
Definition infer (env : Env) (inputs : ai_inputs) : exn + value :=
  match AI env MODEL inputs with
  | inl e => inl e
  | inr aiResponse => get aiResponse "response"
  end.

(** What the handler does with a request it accepts. *)
Definition chat_outcome (env : Env) (sessionId message : string) (w : world)
  : (exn + Response) * world :=
  let key := sessionKey sessionId in
  let window := context_window (stored_history (kv w !! key)) (trim message) in
  let inputs := AiInputs window 512 (4 # 10) in
  let asked := (calls w ++ [KvGet key]) ++ [AiRun MODEL inputs] in
  match infer env inputs with
  | inl e =>
      (inr internal_error, World (kv w) asked (console w ++ [("Chat error", e)]))
  | inr response =>
      let replyText := nullish_or response (VStr "[no response]") in
      let history := window ++ [ChatMessage "assistant" replyText] in
      let stored := Json (VArr (map json_elem history)) in
      (inr (json (VObj {[ "reply" := replyText; "history" := VArr history ]}) 200),
       World (<[key := stored]> (kv w)) (asked ++ [KvPut key stored TTL]) (console w))
  end.

(** ** Sample data *)

Definition sample_turn (i : nat) : value :=
  ChatMessage (if Nat.even i then "user" else "assistant") (VStr (pretty i)).

(** The instruction turn followed by [n] alternating turns, numbered from 0. *)
Definition sample_transcript (n : nat) : list value :=
  ChatMessage "system" (VStr (trim SYSTEM_PROMPT)) :: map sample_turn (seq 0 n).

(** The instruction turn of a fresh session. *)
Definition preamble : value := ChatMessage "system" (VStr (trim SYSTEM_PROMPT)).

(** A store holding, for session [s1], a JSON array whose only element has
    a role outside the closed set. *)
Definition wizard_world : world :=
  World {[ "session:s1" := Json (VArr [ChatMessage "wizard" (VStr "hi")]) ]} [] [].

(** A backend that always answers [reply]. *)
Definition answering (reply : value) : Env :=
  MkEnv (fun _ _ => inr (VObj {[ "response" := reply ]})).

(** A backend that always fails. *)
Definition failing : Env := MkEnv (fun _ _ => inl (Failure "upstream")).

(** The world after [n] successive chat calls on session [s1], the backend
    always answering "ok". *)
Fixpoint chat_rounds (n : nat) : world :=
  match n with
  | O => initial
  | S k => (handleChat (chat_request "s1" (pretty k)) (answering (VStr "ok"))
              (chat_rounds k)).2
  end.

(** ** Vocabulary of the further properties *)

(** The one route that reaches [handleChat]. *)
Definition chat_route (request : Request) : bool :=
  String.eqb (pathname request) "/api/chat" && String.eqb (method request) "POST".

(** A turn as the handler builds it for a text. *)
Definition text_turn (t : value) : Prop :=
  exists role content, t = ChatMessage role (VStr content).

(** User and assistant turns follow each other in turn. *)
Fixpoint alternating (l : list value) : Prop :=
  match l with
  | [] => True
  | a :: tl =>
      match tl with
      | [] => turn_role a = Some "user" \/ turn_role a = Some "assistant"
      | b :: _ =>
          ((turn_role a = Some "user" /\ turn_role b = Some "assistant") \/
           (turn_role a = Some "assistant" /\ turn_role b = Some "user"))
          /\ alternating tl
      end
  end.

(** A transcript as the handler leaves it in the store: the instruction
    turn, then alternating user and assistant turns, the last one by the
    assistant. *)
Definition settled (h : list value) : Prop :=
  exists first rest,
    h = first :: rest /\
    is_instruction first = true /\
    alternating rest /\
    (turn_role <$> last rest) = Some (Some "assistant").

(** ** The page's submit handler

    The script of the page served at [/], as far as it decides what is
    sent: the input is trimmed, nothing is sent for an empty text, and
    otherwise the body is [JSON.stringify({ sessionId, message: text })],
    posted to [/api/chat]. *)
Definition page_submit (sessionId input : string) : option Request :=
  let text := trim input in
  if negb (truthy (VStr text)) then None
  else
    Some (MkRequest "POST" "/api/chat"
            (default (NotJson "")
               (JSON_stringify
                  (VObj {[ "sessionId" := VStr sessionId; "message" := VStr text ]})))).

(** * Properties *)

(** ** Windowing *)

Lemma slice_one {A} (x : A) (l : list A) : slice (x :: l) 1 = l.
Proof.
  unfold slice. simpl length.
  replace (Z.min 1 (Z.of_nat (S (length l)))) with 1%Z by lia.
  reflexivity.
Qed.

Lemma slice_last {A} (l : list A) (n : nat) :
  (0 < n)%nat ->
  slice l (- Z.of_nat n) = drop (length l - n) l.
Proof.
  intros Hn. unfold slice.
  destruct (Z.ltb_spec (- Z.of_nat n) 0) as [_|Hge]; [|lia].
  f_equal. lia.
Qed.

Lemma trimHistory_short (h : list value) (N : Z) :
  (Z.of_nat (length h) <= N + 1)%Z -> trimHistory h N = h.
Proof.
  intros Hle. unfold trimHistory.
  destruct (Z.leb_spec (Z.of_nat (length h)) (N + 1)) as [_|Hgt]; [reflexivity|lia].
Qed.

Lemma trimHistory_long (first : value) (rest : list value) (n : nat) :
  (0 < n)%nat -> (n < length rest)%nat ->
  trimHistory (first :: rest) (Z.of_nat n) = first :: drop (length rest - n) rest.
Proof.
  intros Hpos Hlt. unfold trimHistory.
  destruct (Z.leb_spec (Z.of_nat (length (first :: rest))) (Z.of_nat n + 1)) as [Hle|_].
  { simpl length in Hle. lia. }
  rewrite slice_one, slice_last by done. reflexivity.
Qed.

Lemma trimHistory_16_long (first : value) (rest : list value) :
  (16 < length rest)%nat ->
  trimHistory (first :: rest) MAX_HISTORY_MESSAGES
  = first :: drop (length rest - 16) rest.
Proof.
  intros Hlt. change MAX_HISTORY_MESSAGES with (Z.of_nat 16).
  apply trimHistory_long; lia.
Qed.

Lemma trimHistory_16_length (h : list value) :
  (length (trimHistory h MAX_HISTORY_MESSAGES) <= 17)%nat.
Proof.
  destruct (decide (length h <= 17)%nat) as [Hle|Hgt].
  - rewrite trimHistory_short; [done|]. unfold MAX_HISTORY_MESSAGES. lia.
  - destruct h as [|first rest]; [simpl in Hgt; lia|].
    simpl in Hgt. rewrite trimHistory_16_long by lia.
    simpl. rewrite length_drop. lia.
Qed.

(** C1. Windowing with the bound N = 16: a transcript of at most N + 1 = 17
    turns is returned unchanged; a longer one is returned as its turn at
    position 0 followed by exactly its last 16 other turns, in their
    original order, the older ones being dropped. *)
Theorem trimHistory_window (h : list value) :
  ((length h <= 17)%nat -> trimHistory h MAX_HISTORY_MESSAGES = h) /\
  ((17 < length h)%nat ->
     exists first older kept,
       h = first :: older ++ kept /\
       length kept = 16%nat /\
       trimHistory h MAX_HISTORY_MESSAGES = first :: kept).
Proof.
  split.
  - intros Hle. apply trimHistory_short. unfold MAX_HISTORY_MESSAGES. lia.
  - intros Hgt. destruct h as [|first rest]; [simpl in Hgt; lia|].
    simpl in Hgt.
    exists first, (take (length rest - 16) rest), (drop (length rest - 16) rest).
    split; [by rewrite take_drop|].
    split; [rewrite length_drop; lia|].
    apply trimHistory_16_long. lia.
Qed.

Lemma trimHistory_window_witness :
  trimHistory (replicate 17 VNull) MAX_HISTORY_MESSAGES = replicate 17 VNull /\
  exists first older kept,
    VBool true :: VBool false :: replicate 16 VNull = first :: older ++ kept /\
    length kept = 16%nat /\
    trimHistory (VBool true :: VBool false :: replicate 16 VNull) MAX_HISTORY_MESSAGES
    = first :: kept.
Proof.
  split.
  - apply (proj1 (trimHistory_window (replicate 17 VNull))). simpl. lia.
  - apply (proj2 (trimHistory_window (VBool true :: VBool false :: replicate 16 VNull))).
    simpl. lia.
Defined.

(** C4, as amended. With N = 16: a transcript with exactly 16
    non-instruction turns after the instruction turn is not trimmed; with
    17 it is trimmed to the instruction turn and the 16 most recent,
    dropping the oldest one; with 18, dropping the oldest two. *)
Theorem window_boundary (first : value) (rest : list value) :
  (length rest = 16%nat ->
     trimHistory (first :: rest) MAX_HISTORY_MESSAGES = first :: rest) /\
  (length rest = 17%nat ->
     trimHistory (first :: rest) MAX_HISTORY_MESSAGES = first :: drop 1 rest) /\
  (length rest = 18%nat ->
     trimHistory (first :: rest) MAX_HISTORY_MESSAGES = first :: drop 2 rest).
Proof.
  repeat split; intros Hlen.
  - apply trimHistory_short. simpl length. unfold MAX_HISTORY_MESSAGES. lia.
  - rewrite trimHistory_16_long by lia. by rewrite Hlen.
  - rewrite trimHistory_16_long by lia. by rewrite Hlen.
Qed.

Lemma window_boundary_witness :
  trimHistory (sample_transcript 16) MAX_HISTORY_MESSAGES = sample_transcript 16 /\
  trimHistory (sample_transcript 17) MAX_HISTORY_MESSAGES
  = ChatMessage "system" (VStr (trim SYSTEM_PROMPT)) :: map sample_turn (seq 1 16) /\
  trimHistory (sample_transcript 18) MAX_HISTORY_MESSAGES
  = ChatMessage "system" (VStr (trim SYSTEM_PROMPT)) :: map sample_turn (seq 2 16).
Proof.
  pose proof (window_boundary (ChatMessage "system" (VStr (trim SYSTEM_PROMPT)))) as H.
  split; [|split].
  - apply (proj1 (H (map sample_turn (seq 0 16)))). reflexivity.
  - apply (proj1 (proj2 (H (map sample_turn (seq 0 17))))). reflexivity.
  - apply (proj2 (proj2 (H (map sample_turn (seq 0 18))))). reflexivity.
Defined.

(** C4, counterexample. The instruction turn followed by exactly 17
    non-instruction turns is 18 turns long, and the windowing step trims
    it: the oldest non-instruction turn is dropped. *)
Lemma seventeen_turns_are_trimmed :
  length (filter (fun t => negb (is_instruction t)) (sample_transcript 17)) = 17%nat /\
  trimHistory (sample_transcript 17) MAX_HISTORY_MESSAGES <> sample_transcript 17.
Proof.
  split; [vm_compute; reflexivity|].
  intros H. apply (f_equal length) in H. vm_compute in H. discriminate.
Qed.

(** [slice] follows the language at its edges: a start of [-0] is [0], so
    a bound of zero keeps every turn, and a start before the beginning is
    clamped. *)
Example slice_edges :
  slice [VNum 1; VNum 2; VNum 3] (- 0) = [VNum 1; VNum 2; VNum 3] /\
  slice [VNum 1; VNum 2; VNum 3] (- 2) = [VNum 2; VNum 3] /\
  slice [VNum 1; VNum 2; VNum 3] (- 5) = [VNum 1; VNum 2; VNum 3] /\
  slice [VNum 1; VNum 2; VNum 3] 5 = [].
Proof. repeat split. Qed.

(** ** Symbolic runs of the helpers and of the handler *)

Lemma loadHistory_run (env : Env) (sessionId : string) (w : world) :
  loadHistory env sessionId w
  = (inr (stored_history (kv w !! sessionKey sessionId)),
     World (kv w) (calls w ++ [KvGet (sessionKey sessionId)]) (console w)).
Proof.
  unfold loadHistory, bind, CHAT_KV_get, try_catch, lift, ret. cbv beta iota.
  destruct (kv w !! sessionKey sessionId) as [[s|v]|]; simpl.
  - by destruct s.
  - by destruct v.
  - done.
Qed.

Lemma saveHistory_run (env : Env) (sessionId : string) (history : list value) (w : world) :
  saveHistory env sessionId history w
  = (inr tt,
     World (<[sessionKey sessionId := Json (VArr (map json_elem history))]> (kv w))
           (calls w ++ [KvPut (sessionKey sessionId)
                          (Json (VArr (map json_elem history))) TTL])
           (console w)).
Proof. reflexivity. Qed.

Lemma accepted_check (v : value) :
  negb (truthy v) || negb (String.eqb (typeof v) "string") = negb (accepted v).
Proof. destruct v as [| |b|n|s|l|m]; try reflexivity; try by destruct b.
  - simpl. by destruct (n =? 0)%Z.
  - by destruct s.
Qed.

Lemma handleChat_accepted request sessionId message env w :
  accepted_request request sessionId message ->
  handleChat request env w = chat_outcome env sessionId message w.
Proof.
  intros (b & Hbody & Hsid & Hne1 & Hmsg & Hne2).
  unfold handleChat, chat_outcome, try_catch, bind, Request_json, lift.
  rewrite Hbody. cbv beta iota delta [JSON_parse]. rewrite Hsid, Hmsg.
  rewrite !accepted_check.
  destruct sessionId as [|a1 s1]; [done|]. destruct message as [|a2 s2]; [done|].
  cbv beta iota delta [accepted negb].
  rewrite loadHistory_run.
  unfold AI_run, infer, context_window. cbv beta iota.
  cbv beta iota delta [calls kv console].
  destruct (AI env _ _) as [e|aiResponse]; [reflexivity|].
  fold MODEL.
  destruct (get aiResponse "response") as [e|response]; [reflexivity|].
  rewrite saveHistory_run. reflexivity.
Qed.

Lemma handleChat_unparseable request s env w :
  body request = NotJson s ->
  handleChat request env w
  = (inr internal_error,
     World (kv w) (calls w) (console w ++ [("Chat error", SyntaxError)])).
Proof.
  intros Hbody. unfold handleChat, try_catch, bind, Request_json, lift.
  rewrite Hbody. reflexivity.
Qed.

Lemma handleChat_no_fields request b e env w :
  body request = Json b ->
  get b "sessionId" = inl e ->
  handleChat request env w
  = (inr internal_error, World (kv w) (calls w) (console w ++ [("Chat error", e)])).
Proof.
  intros Hbody Hsid. unfold handleChat, try_catch, bind, Request_json, lift.
  rewrite Hbody. cbv beta iota delta [JSON_parse]. rewrite Hsid. reflexivity.
Qed.

Lemma handleChat_bad_session request b v env w :
  body request = Json b ->
  get b "sessionId" = inr v ->
  accepted v = false ->
  handleChat request env w = (inr (bad_request "Missing or invalid sessionId"), w).
Proof.
  intros Hbody Hsid Hv. unfold handleChat, try_catch, bind, Request_json, lift.
  rewrite Hbody. cbv beta iota delta [JSON_parse]. rewrite Hsid.
  rewrite accepted_check, Hv. reflexivity.
Qed.

Lemma handleChat_bad_message request b v v' env w :
  body request = Json b ->
  get b "sessionId" = inr v ->
  accepted v = true ->
  get b "message" = inr v' ->
  accepted v' = false ->
  handleChat request env w = (inr (bad_request "Missing or invalid message"), w).
Proof.
  intros Hbody Hsid Hv Hmsg Hv'. unfold handleChat, try_catch, bind, Request_json, lift.
  rewrite Hbody. cbv beta iota delta [JSON_parse]. rewrite Hsid, Hmsg.
  rewrite !accepted_check, Hv, Hv'. reflexivity.
Qed.

Lemma get_total_after (b : value) (k k' : string) (v : value) :
  get b k = inr v -> exists v', get b k' = inr v'.
Proof. destruct b; intros; try done; eexists; reflexivity. Qed.

Lemma accepted_inv (v : value) :
  accepted v = true -> exists s, v = VStr s /\ s <> "".
Proof. destruct v as [| | | |[|a s]| |]; try done. intros _. by eexists. Qed.

(** Every request ends in one of three ways: the generic error without any
    collaborator call, a rejection that leaves the world as it is, or the
    outcome of an accepted request. *)
Lemma handleChat_cases request env w :
  (exists e, handleChat request env w
     = (inr internal_error, World (kv w) (calls w) (console w ++ [("Chat error", e)]))) \/
  (exists reason, handleChat request env w = (inr (bad_request reason), w)) \/
  (exists sessionId message,
     accepted_request request sessionId message /\
     handleChat request env w = chat_outcome env sessionId message w).
Proof.
  destruct (body request) as [s|b] eqn:Hbody.
  { left. eexists. by eapply handleChat_unparseable. }
  destruct (get b "sessionId") as [e|v] eqn:Hsid.
  { left. eexists. by eapply handleChat_no_fields. }
  destruct (accepted v) eqn:Hv.
  2:{ right; left. eexists. by eapply handleChat_bad_session. }
  destruct (get_total_after b "sessionId" "message" v Hsid) as [v' Hmsg].
  destruct (accepted v') eqn:Hv'.
  2:{ right; left. eexists. by eapply handleChat_bad_message. }
  right; right.
  apply accepted_inv in Hv as (sid & -> & Hne1).
  apply accepted_inv in Hv' as (msg & -> & Hne2).
  assert (accepted_request request sid msg) as Hacc by (by exists b).
  exists sid, msg. split; [done|]. by apply handleChat_accepted.
Qed.

Lemma new_calls_same (w : world) kv' console' :
  new_calls w (World kv' (calls w) console') = [].
Proof. unfold new_calls. simpl. by rewrite drop_all. Qed.

Lemma new_calls_refl (w : world) : new_calls w w = [].
Proof. unfold new_calls. by rewrite drop_all. Qed.

Lemma new_calls_app (w : world) kv' console' (l : list call) :
  new_calls w (World kv' (calls w ++ l) console') = l.
Proof. unfold new_calls. simpl. by rewrite drop_app_length. Qed.

(** ** Inference failure *)

(** C2. If the inference call of a request raises, the handler answers
    with the generic internal error, the error is logged, and the stored
    transcripts are those of before the call: nothing is written to the
    store. *)
Theorem inference_failure_commits_nothing request env w r w' model inputs e :
  handleChat request env w = (r, w') ->
  AiRun model inputs ∈ new_calls w w' ->
  AI env model inputs = inl e ->
  r = inr internal_error /\
  kv w' = kv w /\
  (forall key val ttl, KvPut key val ttl ∉ new_calls w w') /\
  console w' = console w ++ [("Chat error", e)].
Proof.
  intros Hrun Hcall Hfail.
  destruct (handleChat_cases request env w)
    as [[e0 H]|[[reason H]|(sid & msg & Hacc & H)]];
    rewrite H in Hrun; clear H.
  - injection Hrun as <- <-. rewrite new_calls_same in Hcall. by apply elem_of_nil in Hcall.
  - injection Hrun as <- <-. rewrite new_calls_refl in Hcall. by apply elem_of_nil in Hcall.
  - unfold chat_outcome, infer in Hrun.
    set (key := sessionKey sid) in *.
    set (window := context_window _ _) in *.
    destruct (AI env MODEL (AiInputs window 512 (4 # 10))) as [e0|a] eqn:Hai.
    + injection Hrun as <- <-.
      rewrite <- app_assoc, new_calls_app in Hcall |- *.
      assert (model = MODEL /\ inputs = AiInputs window 512 (4 # 10)) as [-> ->].
      { apply elem_of_cons in Hcall as [?|Hcall]; [done|].
        apply list_elem_of_singleton in Hcall. by injection Hcall. }
      rewrite Hai in Hfail. injection Hfail as ->.
      repeat split; try done.
      intros k v ttl Hin.
      apply elem_of_cons in Hin as [?|Hin]; [done|].
      by apply list_elem_of_singleton in Hin.
    + assert (AiRun model inputs = AiRun MODEL (AiInputs window 512 (4 # 10))) as Heq.
      { destruct (get a "response") as [e1|response];
          injection Hrun as <- <-;
          rewrite <- ?app_assoc, new_calls_app in Hcall;
          repeat (apply elem_of_cons in Hcall as [Hcall|Hcall]; try done);
          by apply elem_of_nil in Hcall. }
      injection Heq as -> ->. congruence.
Qed.

Lemma inference_failure_commits_nothing_witness :
  (handleChat (chat_request "s1" "hello") failing initial).1 = inr internal_error /\
  kv (handleChat (chat_request "s1" "hello") failing initial).2 = ∅.
Proof.
  pose proof (inference_failure_commits_nothing
    (chat_request "s1" "hello") failing initial
    (handleChat (chat_request "s1" "hello") failing initial).1
    (handleChat (chat_request "s1" "hello") failing initial).2
    MODEL (AiInputs (context_window [] "hello") 512 (4 # 10)) (Failure "upstream")) as H.
  destruct H as (Hr & Hkv & _).
  - reflexivity.
  - vm_compute. apply list_elem_of_further, list_elem_of_here.
  - reflexivity.
  - split; [exact Hr | exact Hkv].
Defined.

(** Whatever the cause, a request that is not answered with status 200
    leaves the store as it was. *)
Lemma store_unchanged_unless_ok request env w r w' :
  handleChat request env w = (inr r, w') ->
  status r <> 200 ->
  kv w' = kv w.
Proof.
  intros Hrun Hstatus.
  destruct (handleChat_cases request env w)
    as [[e H]|[[reason H]|(sid & msg & _ & H)]];
    rewrite H in Hrun; clear H.
  - by injection Hrun as <- <-.
  - by injection Hrun as <- <-.
  - unfold chat_outcome in Hrun.
    destruct (infer env _) as [e|response]; injection Hrun as <- <-; done.
Qed.

(** ** Validation *)

Lemma chat_request_accepted (sessionId message : string) :
  sessionId <> "" -> message <> "" ->
  accepted_request (chat_request sessionId message) sessionId message.
Proof.
  intros H1 H2. eexists. split; [reflexivity|].
  unfold get. rewrite lookup_insert_eq, lookup_insert_ne, lookup_singleton_eq by done.
  done.
Qed.

Lemma get_field (b : value) (k : string) :
  has_fields b = true -> get b k = inr (field b k).
Proof. by destruct b. Qed.

Lemma get_no_fields (b : value) (k : string) :
  has_fields b = false -> get b k = inl TypeError.
Proof. by destruct b. Qed.

(** C9, as amended. For a request whose body parses to a value other than
    [null]: when [sessionId] is missing, not a string or empty, the answer
    is the bad-request response with reason "Missing or invalid sessionId";
    otherwise, when [message] is missing, not a string or empty, it is the
    bad-request response with reason "Missing or invalid message". When the
    body is [null] the answer is the generic internal error. In all these
    cases no collaborator is called and the store is unchanged. *)
Theorem invalid_fields_are_rejected request b env w :
  body request = Json b ->
  (has_fields b = true -> accepted (field b "sessionId") = false ->
     handleChat request env w
     = (inr (bad_request "Missing or invalid sessionId"), w)) /\
  (has_fields b = true -> accepted (field b "sessionId") = true ->
   accepted (field b "message") = false ->
     handleChat request env w
     = (inr (bad_request "Missing or invalid message"), w)) /\
  (has_fields b = false ->
     handleChat request env w
     = (inr internal_error,
        World (kv w) (calls w) (console w ++ [("Chat error", TypeError)]))) /\
  (has_fields b = false \/ accepted (field b "sessionId") = false
   \/ accepted (field b "message") = false ->
     new_calls w (handleChat request env w).2 = [] /\
     kv (handleChat request env w).2 = kv w).
Proof.
  intros Hbody.
  assert (has_fields b = true -> accepted (field b "sessionId") = false ->
          handleChat request env w
          = (inr (bad_request "Missing or invalid sessionId"), w)) as Hsid.
  { intros Hb Hv. eapply handleChat_bad_session; eauto using get_field. }
  assert (has_fields b = true -> accepted (field b "sessionId") = true ->
          accepted (field b "message") = false ->
          handleChat request env w
          = (inr (bad_request "Missing or invalid message"), w)) as Hmsg.
  { intros Hb Hv Hv'. eapply handleChat_bad_message; eauto using get_field. }
  assert (has_fields b = false ->
          handleChat request env w
          = (inr internal_error,
             World (kv w) (calls w) (console w ++ [("Chat error", TypeError)]))) as Hnull.
  { intros Hb. eapply handleChat_no_fields; eauto using get_no_fields. }
  split; [assumption|]. split; [assumption|]. split; [assumption|].
  intros Hinv.
  destruct (has_fields b) eqn:Hb.
  2:{ rewrite Hnull by done. split; [apply new_calls_same | done]. }
  destruct (accepted (field b "sessionId")) eqn:Hv.
  2:{ rewrite Hsid by done. split; [apply new_calls_refl | done]. }
  destruct (accepted (field b "message")) eqn:Hv'.
  2:{ rewrite Hmsg by done. split; [apply new_calls_refl | done]. }
  destruct Hinv as [?|[?|?]]; done.
Qed.

Lemma invalid_fields_are_rejected_witness :
  handleChat (chat_request "" "hello") failing initial
  = (inr (bad_request "Missing or invalid sessionId"), initial) /\
  handleChat (MkRequest "POST" "/api/chat"
                (Json (VObj {[ "sessionId" := VStr "s1"; "message" := VNum 7 ]})))
             failing initial
  = (inr (bad_request "Missing or invalid message"), initial).
Proof.
  split.
  - apply (proj1 (invalid_fields_are_rejected (chat_request "" "hello") _ failing initial
                    eq_refl)); reflexivity.
  - apply (proj1 (proj2 (invalid_fields_are_rejected
                    (MkRequest "POST" "/api/chat"
                       (Json (VObj {[ "sessionId" := VStr "s1"; "message" := VNum 7 ]})))
                    _ failing initial eq_refl))); reflexivity.
Defined.

(** C9, counterexample. A request whose body is the JSON text [null] has
    no [sessionId], yet it is answered with the generic internal error
    (status 500), not with a bad-request response. *)
Lemma null_body_is_internal_error :
  handleChat (MkRequest "POST" "/api/chat" (Json VNull)) failing initial
  = (inr internal_error, World ∅ [] [("Chat error", TypeError)]) /\
  status internal_error = 500 /\
  forall reason, internal_error <> bad_request reason.
Proof.
  split; [reflexivity|]. split; [reflexivity|].
  intros reason H. apply (f_equal status) in H. discriminate.
Qed.

(** C10. A POST to [/api/chat] whose body is not parseable JSON is answered
    with the generic internal error, status 500 and body
    [{"error": "Internal error"}]; neither the store nor the backend is
    accessed. *)
Theorem unparseable_body_is_internal_error html request s env w :
  method request = "POST" ->
  pathname request = "/api/chat" ->
  body request = NotJson s ->
  fetch html request env w
  = (inr internal_error,
     World (kv w) (calls w) (console w ++ [("Chat error", SyntaxError)])) /\
  status internal_error = 500 /\
  payload internal_error = Some (Json (VObj {[ "error" := VStr "Internal error" ]})) /\
  new_calls w (fetch html request env w).2 = [] /\
  kv (fetch html request env w).2 = kv w.
Proof.
  intros Hm Hp Hbody.
  assert (fetch html request env w = handleChat request env w) as ->.
  { unfold fetch. by rewrite Hm, Hp. }
  rewrite (handleChat_unparseable _ s) by done.
  repeat split; try reflexivity. apply new_calls_same.
Qed.

Lemma unparseable_body_is_internal_error_witness :
  fetch "<!doctype html>" (MkRequest "POST" "/api/chat" (NotJson "{oops")) failing initial
  = (inr internal_error, World ∅ [] [("Chat error", SyntaxError)]).
Proof.
  apply (proj1 (unparseable_body_is_internal_error "<!doctype html>"
                  (MkRequest "POST" "/api/chat" (NotJson "{oops")) "{oops" failing initial
                  eq_refl eq_refl eq_refl)).
Defined.

(** C6, the code at the failing input. A message of three spaces passes the
    emptiness test, which is made before trimming: the store is read, the
    backend is called with a user turn whose content is the empty string,
    and the transcript with that turn is persisted. *)
Theorem whitespace_message_is_processed :
  trim "   " = "" /\
  handleChat (chat_request "s1" "   ") (answering (VStr "ok")) initial
  = (inr (json (VObj {[ "reply" := VStr "ok";
                        "history" := VArr [preamble; ChatMessage "user" (VStr "");
                                           ChatMessage "assistant" (VStr "ok")] ]}) 200),
     World {[ "session:s1" :=
                Json (VArr [preamble; ChatMessage "user" (VStr "");
                            ChatMessage "assistant" (VStr "ok")]) ]}
           [ KvGet "session:s1";
             AiRun MODEL (AiInputs [preamble; ChatMessage "user" (VStr "")] 512 (4 # 10));
             KvPut "session:s1"
               (Json (VArr [preamble; ChatMessage "user" (VStr "");
                            ChatMessage "assistant" (VStr "ok")])) TTL ]
           []).
Proof. split; vm_compute; reflexivity. Qed.

(** ** Replies without text *)

Lemma json_elem_ChatMessage_text (role content : string) :
  json_elem (ChatMessage role (VStr content)) = ChatMessage role (VStr content).
Proof. reflexivity. Qed.

(** C7, as amended. When the backend returns a result whose [response]
    property is missing or [null], the reply is the sentinel
    "[no response]": the request succeeds with status 200 and the
    transcript persisted ends with an assistant turn whose content is that
    sentinel, a non-empty text. *)
Theorem missing_reply_gets_sentinel request sessionId message env w aiResponse :
  let key := sessionKey sessionId in
  let window := context_window (stored_history (kv w !! key)) (trim message) in
  let history := window ++ [ChatMessage "assistant" (VStr "[no response]")] in
  accepted_request request sessionId message ->
  AI env MODEL (AiInputs window 512 (4 # 10)) = inr aiResponse ->
  has_fields aiResponse = true ->
  field aiResponse "response" = VUndef \/ field aiResponse "response" = VNull ->
  handleChat request env w
  = (inr (json (VObj {[ "reply" := VStr "[no response]";
                        "history" := VArr history ]}) 200),
     World (<[key := Json (VArr (map json_elem history))]> (kv w))
           (calls w ++ [KvGet key; AiRun MODEL (AiInputs window 512 (4 # 10));
                        KvPut key (Json (VArr (map json_elem history))) TTL])
           (console w)) /\
  last (map json_elem history) = Some (ChatMessage "assistant" (VStr "[no response]")) /\
  nonempty_text (VStr "[no response]") = true.
Proof.
  intros key window history Hacc Hai Hobj Hnone.
  split; [|split; [|reflexivity]].
  - rewrite (handleChat_accepted _ _ _ _ _ Hacc). unfold chat_outcome, infer.
    fold key. fold window. rewrite Hai, (get_field _ _ Hobj).
    assert (nullish_or (field aiResponse "response") (VStr "[no response]")
            = VStr "[no response]") as -> by (by destruct Hnone as [-> | ->]).
    fold history. by rewrite <- !app_assoc.
  - unfold history. rewrite map_app. cbn [map]. rewrite last_snoc.
    by rewrite json_elem_ChatMessage_text.
Qed.

Lemma missing_reply_gets_sentinel_witness :
  handleChat (chat_request "s1" "hello") (MkEnv (fun _ _ => inr (VObj ∅))) initial
  = (inr (json (VObj {[ "reply" := VStr "[no response]";
                        "history" := VArr [preamble; ChatMessage "user" (VStr "hello");
                                           ChatMessage "assistant" (VStr "[no response]")] ]})
            200),
     World {[ "session:s1" :=
                Json (VArr [preamble; ChatMessage "user" (VStr "hello");
                            ChatMessage "assistant" (VStr "[no response]")]) ]}
           [ KvGet "session:s1";
             AiRun MODEL (AiInputs [preamble; ChatMessage "user" (VStr "hello")] 512 (4 # 10));
             KvPut "session:s1"
               (Json (VArr [preamble; ChatMessage "user" (VStr "hello");
                            ChatMessage "assistant" (VStr "[no response]")])) TTL ]
           []).
Proof.
  pose proof (missing_reply_gets_sentinel (chat_request "s1" "hello") "s1" "hello"
                (MkEnv (fun _ _ => inr (VObj ∅))) initial (VObj ∅)) as H.
  destruct H as (Hrun & _).
  - apply chat_request_accepted; discriminate.
  - reflexivity.
  - reflexivity.
  - left. reflexivity.
  - rewrite Hrun. vm_compute. reflexivity.
Defined.

(** C7, counterexample. A backend that succeeds with the empty string as
    its reply text: no sentinel is substituted, the reply is the empty
    string and the assistant turn persisted has empty content. And where
    the sentinel is substituted, for a reply that is missing, the user turn
    persisted with it can still have empty content. *)
Lemma stored_content_can_be_empty :
  nonempty_text (VStr "") = false /\
  handleChat (chat_request "s1" "hello") (answering (VStr "")) initial
  = (inr (json (VObj {[ "reply" := VStr "";
                        "history" := VArr [preamble; ChatMessage "user" (VStr "hello");
                                           ChatMessage "assistant" (VStr "")] ]}) 200),
     World {[ "session:s1" :=
                Json (VArr [preamble; ChatMessage "user" (VStr "hello");
                            ChatMessage "assistant" (VStr "")]) ]}
           [ KvGet "session:s1";
             AiRun MODEL (AiInputs [preamble; ChatMessage "user" (VStr "hello")] 512 (4 # 10));
             KvPut "session:s1"
               (Json (VArr [preamble; ChatMessage "user" (VStr "hello");
                            ChatMessage "assistant" (VStr "")])) TTL ]
           []) /\
  kv (handleChat (chat_request "s1" "   ") (MkEnv (fun _ _ => inr (VObj ∅))) initial).2
  = {[ "session:s1" :=
         Json (VArr [preamble; ChatMessage "user" (VStr "");
                     ChatMessage "assistant" (VStr "[no response]")]) ]}.
Proof. repeat split; vm_compute; reflexivity. Qed.

(** ** Loading *)

Lemma stored_history_unusable (raw : option text) :
  unusable raw = true -> stored_history raw = [].
Proof. destruct raw as [[s|[]]|]; done. Qed.

Lemma handleChat_returns request env w :
  exists r, (handleChat request env w).1 = inr r.
Proof.
  destruct (handleChat_cases request env w)
    as [[e ->]|[[reason ->]|(sid & msg & _ & ->)]]; [by eexists..|].
  unfold chat_outcome. destruct (infer _ _); by eexists.
Qed.

(** C5, as amended. When the entry of the session is absent, is not
    parseable as JSON, or parses to something that is not an array, the
    load step yields the empty transcript and the call behaves as on a
    store without that entry: same response (never an exception), same
    collaborator calls, and after a success the same store. The session is
    seeded afresh: the backend receives the instruction turn and the user
    turn, and a backend that answers makes the call succeed. *)
Theorem unusable_entry_is_fresh_session request sessionId message env w :
  let fresh := World (delete (sessionKey sessionId) (kv w)) (calls w) (console w) in
  accepted_request request sessionId message ->
  unusable (kv w !! sessionKey sessionId) = true ->
  (loadHistory env sessionId w).1 = inr [] /\
  (exists r, (handleChat request env w).1 = inr r /\
             (handleChat request env fresh).1 = inr r /\
             (status r = 200 ->
              kv (handleChat request env w).2 = kv (handleChat request env fresh).2) /\
             (forall response,
                infer env (AiInputs [preamble; ChatMessage "user" (VStr (trim message))]
                             512 (4 # 10)) = inr response ->
                status r = 200)) /\
  calls (handleChat request env w).2 = calls (handleChat request env fresh).2 /\
  AiRun MODEL (AiInputs [preamble; ChatMessage "user" (VStr (trim message))] 512 (4 # 10))
    ∈ new_calls w (handleChat request env w).2.
Proof.
  intros fresh Hacc Hbad.
  pose proof (stored_history_unusable _ Hbad) as Hload.
  split.
  { rewrite loadHistory_run. simpl. by rewrite Hload. }
  rewrite !(handleChat_accepted _ _ _ _ _ Hacc). unfold chat_outcome, fresh.
  cbn [kv calls console]. rewrite lookup_delete_eq, Hload. cbn [stored_history].
  assert (context_window [] (trim message)
          = [preamble; ChatMessage "user" (VStr (trim message))]) as -> by reflexivity.
  destruct (infer env _) as [e|response]; cbn [fst snd kv calls].
  - split; [|split; [done|]].
    + eexists. repeat split; done.
    + rewrite <- app_assoc, new_calls_app. apply list_elem_of_further, list_elem_of_here.
  - split; [|split; [done|]].
    + eexists. repeat split; try done. intros _. by rewrite insert_delete_eq.
    + rewrite <- !app_assoc, new_calls_app. apply list_elem_of_further, list_elem_of_here.
Qed.

Lemma unusable_entry_is_fresh_session_witness :
  (loadHistory failing "s1" (World {[ "session:s1" := NotJson "not json{" ]} [] [])).1
  = inr [].
Proof.
  apply (unusable_entry_is_fresh_session (chat_request "s1" "hello") "s1" "hello" failing
           (World {[ "session:s1" := NotJson "not json{" ]} [] [])).
  - apply chat_request_accepted; discriminate.
  - reflexivity.
Defined.

(** C5, counterexample. A stored JSON array whose element has a role
    outside the closed set is not a well-formed sequence of turns, yet the
    load step returns it as it is, not the empty transcript; the session is
    not seeded, and the call differs from the call on an absent session. *)
Lemma malformed_array_is_loaded_as_is :
  well_formed_transcript (kv wizard_world !! "session:s1") = false /\
  (loadHistory (answering (VStr "ok")) "s1" wizard_world).1
  = inr [ChatMessage "wizard" (VStr "hi")] /\
  new_calls wizard_world
    (handleChat (chat_request "s1" "hello") (answering (VStr "ok")) wizard_world).2
  = [ KvGet "session:s1";
      AiRun MODEL (AiInputs [ChatMessage "wizard" (VStr "hi");
                             ChatMessage "user" (VStr "hello")] 512 (4 # 10));
      KvPut "session:s1"
        (Json (VArr [ChatMessage "wizard" (VStr "hi"); ChatMessage "user" (VStr "hello");
                     ChatMessage "assistant" (VStr "ok")])) TTL ] /\
  new_calls initial
    (handleChat (chat_request "s1" "hello") (answering (VStr "ok")) initial).2
  = [ KvGet "session:s1";
      AiRun MODEL (AiInputs [preamble; ChatMessage "user" (VStr "hello")] 512 (4 # 10));
      KvPut "session:s1"
        (Json (VArr [preamble; ChatMessage "user" (VStr "hello");
                     ChatMessage "assistant" (VStr "ok")])) TTL ] /\
  (handleChat (chat_request "s1" "hello") (answering (VStr "ok")) wizard_world).1
  <> (handleChat (chat_request "s1" "hello") (answering (VStr "ok")) initial).1.
Proof.
  repeat split; try (vm_compute; reflexivity).
  intros H. vm_compute in H. discriminate H.
Qed.

(** ** The instruction turn *)

Lemma is_instruction_ChatMessage (role : string) (content : value) :
  is_instruction (ChatMessage role content) = String.eqb role "system".
Proof. reflexivity. Qed.

Lemma turn_role_json_elem (t : value) : turn_role (json_elem t) = turn_role t.
Proof.
  destruct t as [| |b|n|s|l|m]; try reflexivity.
  unfold json_elem. simpl. rewrite lookup_omap.
  destruct (m !! "role") as [[| |b|n|s|l|m']|]; reflexivity.
Qed.

Lemma is_instruction_json_elem (t : value) :
  is_instruction (json_elem t) = is_instruction t.
Proof. unfold is_instruction. by rewrite turn_role_json_elem. Qed.

Lemma seeded_snoc (h : list value) (t : value) :
  seeded h -> is_instruction t = false -> seeded (h ++ [t]).
Proof.
  intros (first & rest & -> & Hfirst & Hrest) Ht.
  exists first, (rest ++ [t]). split; [done|]. split; [done|].
  apply Forall_app. split; [done|]. by constructor.
Qed.

Lemma seeded_json (h : list value) : seeded h -> seeded (map json_elem h).
Proof.
  intros (first & rest & -> & Hfirst & Hrest).
  exists (json_elem first), (map json_elem rest). split; [done|].
  split; [by rewrite is_instruction_json_elem|].
  apply Forall_fmap. eapply Forall_impl; [exact Hrest|].
  intros t Ht. simpl. by rewrite is_instruction_json_elem.
Qed.

Lemma trimHistory_seeded (h : list value) :
  seeded h -> seeded (trimHistory h MAX_HISTORY_MESSAGES).
Proof.
  intros (first & rest & -> & Hfirst & Hrest).
  destruct (decide (length rest <= 16)%nat) as [Hle|Hgt].
  - rewrite trimHistory_short; [by exists first, rest|].
    simpl length. unfold MAX_HISTORY_MESSAGES. lia.
  - rewrite trimHistory_16_long by lia.
    exists first, (drop (length rest - 16) rest).
    split; [done|]. split; [done|]. by apply Forall_drop.
Qed.

Lemma context_window_seeded (loaded : list value) (userMessage : string) :
  loaded = [] \/ seeded loaded -> seeded (context_window loaded userMessage).
Proof.
  intros [->|Hseeded]; unfold context_window.
  - cbn [length Nat.eqb app]. apply trimHistory_seeded.
    eexists _, [_]. split; [done|]. split; [done|]. by repeat constructor.
  - pose proof Hseeded as (first & rest & -> & _).
    cbn [length Nat.eqb]. apply trimHistory_seeded. by apply seeded_snoc.
Qed.

Lemma store_seeded_history (m : gmap string text) (key : string) :
  store_seeded m ->
  stored_history (m !! key) = [] \/ seeded (stored_history (m !! key)).
Proof.
  intros Hm. destruct (m !! key) as [t|] eqn:Hk; [|by left].
  destruct (Hm _ _ Hk) as (h & -> & Hh). by right.
Qed.

Lemma chat_outcome_store_seeded env sessionId message w :
  store_seeded (kv w) -> store_seeded (kv (chat_outcome env sessionId message w).2).
Proof.
  intros Hm. unfold chat_outcome.
  destruct (infer env _) as [e|response]; [done|].
  cbn [snd kv]. intros key t Hk.
  apply lookup_insert_Some in Hk as [[_ <-]|[_ Hk]]; [|by eapply Hm].
  eexists. split; [done|].
  apply seeded_json, seeded_snoc; [|done].
  by apply context_window_seeded, store_seeded_history.
Qed.

Lemma handleChat_store_seeded request env w :
  store_seeded (kv w) -> store_seeded (kv (handleChat request env w).2).
Proof.
  intros Hm.
  destruct (handleChat_cases request env w)
    as [[e ->]|[[reason ->]|(sid & msg & _ & ->)]]; [done..|].
  by apply chat_outcome_store_seeded.
Qed.

Lemma fetch_store_seeded html request env w :
  store_seeded (kv w) -> store_seeded (kv (fetch html request env w).2).
Proof.
  intros Hm. unfold fetch.
  destruct (String.eqb (method request) "OPTIONS"); [done|].
  destruct (String.eqb (pathname request) "/" && _); [done|].
  destruct (String.eqb (pathname request) "/api/chat" && _); [|done].
  by apply handleChat_store_seeded.
Qed.

Lemma step_store_seeded w w' : step w w' -> store_seeded (kv w) -> store_seeded (kv w').
Proof.
  intros [html request env r w1 w2 Hrun|key w1] Hm.
  - pose proof (fetch_store_seeded html request env w1 Hm) as H.
    by rewrite Hrun in H.
  - cbn [kv]. intros k t Hk. apply lookup_delete_Some in Hk as [_ Hk]. by eapply Hm.
Qed.

Lemma reachable_store_seeded w : reachable w -> store_seeded (kv w).
Proof.
  intros Hreach.
  refine (rtc_ind_r (fun w => store_seeded (kv w)) initial _ _ w Hreach).
  - intros key t Hk. cbn [initial kv] in Hk. by rewrite lookup_empty in Hk.
  - intros w1 w2 _ Hstep IH. by eapply step_store_seeded.
Qed.

Lemma chat_outcome_asks env sessionId message w :
  AiRun MODEL
    (AiInputs (context_window (stored_history (kv w !! sessionKey sessionId)) (trim message))
       512 (4 # 10))
  ∈ new_calls w (chat_outcome env sessionId message w).2.
Proof.
  unfold chat_outcome. destruct (infer env _) as [e|response]; cbn [snd];
    rewrite <- ?app_assoc, new_calls_app;
    apply list_elem_of_further, list_elem_of_here.
Qed.

Lemma reachable_chat sessionId message env w :
  reachable w -> reachable (handleChat (chat_request sessionId message) env w).2.
Proof.
  intros Hreach. eapply rtc_r; [exact Hreach|].
  destruct (handleChat_returns (chat_request sessionId message) env w) as [r Hr].
  apply (step_fetch "" (chat_request sessionId message) env r).
  change (fetch "" (chat_request sessionId message) env w)
    with (handleChat (chat_request sessionId message) env w).
  destruct (handleChat _ env w) as [r' w']. simpl in Hr. by subst r'.
Qed.

(** C3. In every world the system can reach from the empty store, each
    stored transcript, and so each non-empty loaded transcript, starts with
    an instruction turn that is its only instruction turn. The preamble is
    inserted only when the loaded transcript is empty: for a non-empty one
    the backend receives the window of the loaded turns and the user turn,
    which again holds a single instruction turn, at position 0. *)
Theorem stored_transcripts_are_seeded w :
  reachable w ->
  (forall key t, kv w !! key = Some t -> exists h, t = Json (VArr h) /\ seeded h) /\
  (forall env sessionId,
     (loadHistory env sessionId w).1 = inr [] \/
     exists h, (loadHistory env sessionId w).1 = inr h /\ seeded h) /\
  (forall request sessionId message env,
     accepted_request request sessionId message ->
     let loaded := stored_history (kv w !! sessionKey sessionId) in
     exists window,
       AiRun MODEL (AiInputs window 512 (4 # 10))
         ∈ new_calls w (handleChat request env w).2 /\
       seeded window /\
       (loaded <> [] ->
        window = trimHistory (loaded ++ [ChatMessage "user" (VStr (trim message))])
                   MAX_HISTORY_MESSAGES)).
Proof.
  intros Hreach. pose proof (reachable_store_seeded w Hreach) as Hm.
  split; [exact Hm|]. split.
  - intros env sid. rewrite loadHistory_run. cbn [fst].
    destruct (store_seeded_history (kv w) (sessionKey sid) Hm) as [->|Hs]; [by left|].
    right. by eexists.
  - intros request sid msg env Hacc loaded.
    rewrite (handleChat_accepted _ _ _ _ _ Hacc).
    exists (context_window loaded (trim msg)).
    split; [apply chat_outcome_asks|].
    split; [by apply context_window_seeded, store_seeded_history|].
    intros Hne. unfold context_window. by destruct loaded.
Qed.

Lemma stored_transcripts_are_seeded_witness :
  let t := Json (VArr [preamble;
                       ChatMessage "user" (VStr "0"); ChatMessage "assistant" (VStr "ok");
                       ChatMessage "user" (VStr "1"); ChatMessage "assistant" (VStr "ok")]) in
  kv (chat_rounds 2) !! "session:s1" = Some t /\
  exists h, t = Json (VArr h) /\ seeded h.
Proof.
  intros t. split; [vm_compute; reflexivity|].
  apply (proj1 (stored_transcripts_are_seeded (chat_rounds 2)
                  (reachable_chat _ _ _ _ (reachable_chat _ _ _ _ (rtc_refl _ _))))
           "session:s1" t).
  vm_compute. reflexivity.
Defined.

(** ** The bound on what is persisted *)

Lemma chat_outcome_bound env sessionId message w r w' :
  chat_outcome env sessionId message w = (inr r, w') ->
  status r = 200 ->
  exists window reply,
    kv w' !! sessionKey sessionId = Some (Json (VArr (window ++ [reply]))) /\
    (length window <= 17)%nat /\
    turn_role reply = Some "assistant".
Proof.
  unfold chat_outcome. destruct (infer env _) as [e|response]; intros [= <- <-] Hok.
  { discriminate Hok. }
  cbn [kv]. rewrite lookup_insert_eq, map_app. cbn [map].
  eexists _, _. split; [done|]. split.
  - rewrite length_map. apply trimHistory_16_length.
  - by rewrite turn_role_json_elem.
Qed.

(** C8. After every non-empty sequence of successful turns on a session,
    the transcript persisted for it is the window sent to the backend, of
    at most N + 1 = 17 turns, followed by the assistant turn just added:
    at most N + 2 = 18 entries, however many turns came before. *)
Theorem persisted_transcript_bound sessionId w w' :
  tc (session_turn sessionId) w w' ->
  exists window reply,
    kv w' !! sessionKey sessionId = Some (Json (VArr (window ++ [reply]))) /\
    (length window <= 17)%nat /\
    turn_role reply = Some "assistant" /\
    (length (window ++ [reply]) <= 18)%nat.
Proof.
  intros Hturns.
  assert (exists w1, session_turn sessionId w1 w') as [w1 Hlast].
  { induction Hturns as [w1 w2 Hstep|w1 w2 w3 _ _ IH]; [by exists w1|exact IH]. }
  destruct Hlast as (request & message & env & r & Hacc & Hrun & Hok).
  rewrite (handleChat_accepted _ _ _ _ _ Hacc) in Hrun.
  destruct (chat_outcome_bound _ _ _ _ _ _ Hrun Hok) as (window & reply & Hk & Hlen & Hrole).
  exists window, reply. repeat split; try done.
  rewrite length_app. simpl. lia.
Qed.

Lemma persisted_transcript_bound_witness :
  exists window reply,
    kv (chat_rounds 1) !! "session:s1" = Some (Json (VArr (window ++ [reply]))) /\
    (length window <= 17)%nat /\
    turn_role reply = Some "assistant" /\
    (length (window ++ [reply]) <= 18)%nat.
Proof.
  apply (persisted_transcript_bound "s1" initial (chat_rounds 1)).
  apply tc_once.
  exists (chat_request "s1" "0"), "0", (answering (VStr "ok")),
    (json (VObj {[ "reply" := VStr "ok";
                   "history" := VArr [preamble; ChatMessage "user" (VStr "0");
                                      ChatMessage "assistant" (VStr "ok")] ]}) 200).
  split; [apply chat_request_accepted; discriminate|].
  split; [vm_compute; reflexivity|reflexivity].
Defined.

(** The bound is reached at the ninth turn of a session and kept from then
    on: the twentieth and the fortieth turn persist 18 entries too. *)
Example steady_state :
  map (fun n => length (stored_history (kv (chat_rounds n) !! "session:s1")))
      [1; 2; 8; 9; 10; 20; 40]%nat
  = [3; 5; 17; 18; 18; 18; 18]%nat.
Proof. vm_compute. reflexivity. Qed.

(** The ninth call of a session is the first to be trimmed: after the user
    turn is appended the transcript holds 17 non-instruction turns, and the
    backend receives the instruction turn and the 16 most recent of them. *)
Example ninth_turn_is_trimmed :
  let appended :=
    stored_history (kv (chat_rounds 8) !! "session:s1")
    ++ [ChatMessage "user" (VStr "8")] in
  length (filter (fun t => negb (is_instruction t)) appended) = 17%nat /\
  new_calls (chat_rounds 8) (chat_rounds 9) !! 1%nat
  = Some (AiRun MODEL (AiInputs (preamble :: drop 2 appended) 512 (4 # 10))).
Proof. split; vm_compute; reflexivity. Qed.

(** * Further properties of the worker *)

(** ** Routing *)

Lemma fetch_chat_route html request env w :
  String.eqb (method request) "OPTIONS" = false ->
  chat_route request = true ->
  fetch html request env w = handleChat request env w.
Proof.
  unfold chat_route, fetch. intros -> Hroute.
  apply andb_true_iff in Hroute as [Hp Hm]. rewrite Hp, Hm.
  apply String.eqb_eq in Hp, Hm. rewrite Hp, Hm. reflexivity.
Qed.

Lemma fetch_off_route html request env w :
  chat_route request = false -> (fetch html request env w).2 = w.
Proof.
  unfold chat_route, fetch. intros Hroute.
  destruct (String.eqb (method request) "OPTIONS"); [done|].
  destruct (String.eqb (pathname request) "/" && _); [done|].
  by rewrite Hroute.
Qed.

(** X1. Only a POST to [/api/chat] has any effect: for every other request
    [fetch] leaves the store, the collaborator log and the console as they
    were. *)
Theorem fetch_elsewhere_has_no_effect html request env w :
  chat_route request = false ->
  (fetch html request env w).2 = w.
Proof.
  unfold chat_route, fetch. intros Hroute.
  destruct (String.eqb (method request) "OPTIONS"); [reflexivity|].
  destruct (String.eqb (pathname request) "/" && String.eqb (method request) "GET");
    [reflexivity|].
  rewrite Hroute. reflexivity.
Qed.

Lemma fetch_elsewhere_has_no_effect_witness :
  (fetch "<!doctype html>" (MkRequest "GET" "/api/chat" (Json VNull)) failing wizard_world).2
  = wizard_world.
Proof.
  apply (fetch_elsewhere_has_no_effect "<!doctype html>"
           (MkRequest "GET" "/api/chat" (Json VNull)) failing wizard_world).
  reflexivity.
Defined.

(** X2. The preflight test comes first: an OPTIONS request is answered 204
    without a body and with the three CORS headers on every path, the chat
    path included, and the handler is not run. *)
Theorem options_is_answered_on_every_path html request env w :
  method request = "OPTIONS" ->
  fetch html request env w = (inr handleOptions, w) /\
  status handleOptions = 204 /\
  payload handleOptions = None /\
  headers handleOptions
  = [ ("access-control-allow-origin", "*");
      ("access-control-allow-headers", "Content-Type");
      ("access-control-allow-methods", "POST,OPTIONS") ].
Proof. intros Hm. unfold fetch. rewrite Hm. repeat split. Qed.

Lemma options_is_answered_on_every_path_witness :
  fetch "<!doctype html>" (MkRequest "OPTIONS" "/api/chat" (NotJson "")) failing initial
  = (inr handleOptions, initial).
Proof.
  apply (options_is_answered_on_every_path "<!doctype html>"
           (MkRequest "OPTIONS" "/api/chat" (NotJson "")) failing initial).
  reflexivity.
Defined.

(** X3. Apart from OPTIONS, GET [/] and POST [/api/chat], every request is
    answered 404 with the text "Not found" and no explicit header: the chat
    path with another method, and the root path with a POST, among them. *)
Theorem unknown_route_is_not_found html request env w :
  method request <> "OPTIONS" ->
  ~ (pathname request = "/" /\ method request = "GET") ->
  ~ (pathname request = "/api/chat" /\ method request = "POST") ->
  fetch html request env w
  = (inr (MkResponse (Some (NotJson "Not found")) 404 []), w).
Proof.
  intros Ho Hroot Hchat. unfold fetch.
  destruct (String.eqb_spec (method request) "OPTIONS") as [?|_]; [done|].
  destruct (String.eqb_spec (pathname request) "/") as [Hp|_];
    destruct (String.eqb_spec (method request) "GET") as [Hm|_];
    try (exfalso; by apply Hroot); cbn [andb];
    destruct (String.eqb_spec (pathname request) "/api/chat") as [Hp'|_];
    destruct (String.eqb_spec (method request) "POST") as [Hm'|_];
    try (exfalso; by apply Hchat); reflexivity.
Qed.

Lemma unknown_route_is_not_found_witness :
  fetch "<!doctype html>" (MkRequest "GET" "/api/chat" (Json VNull)) failing initial
  = (inr (MkResponse (Some (NotJson "Not found")) 404 []), initial) /\
  fetch "<!doctype html>" (MkRequest "POST" "/" (NotJson "")) failing initial
  = (inr (MkResponse (Some (NotJson "Not found")) 404 []), initial).
Proof.
  split.
  - apply (unknown_route_is_not_found "<!doctype html>"
             (MkRequest "GET" "/api/chat" _) failing initial); [done| |];
      intros [? ?]; discriminate.
  - apply (unknown_route_is_not_found "<!doctype html>"
             (MkRequest "POST" "/" (NotJson "")) failing initial); [done| |];
      intros [? ?]; discriminate.
Defined.

(** ** The four ways a chat request ends *)

Lemma handleChat_shapes request env w :
  (exists e,
     handleChat request env w
     = (inr internal_error,
        World (kv w) (calls w) (console w ++ [("Chat error", e)]))) \/
  (exists reason, handleChat request env w = (inr (bad_request reason), w)) \/
  (exists sessionId message e,
     accepted_request request sessionId message /\
     handleChat request env w
     = (inr internal_error,
        World (kv w)
          (calls w ++
           [KvGet (sessionKey sessionId);
            AiRun MODEL
              (AiInputs
                 (context_window (stored_history (kv w !! sessionKey sessionId))
                    (trim message)) 512 (4 # 10))])
          (console w ++ [("Chat error", e)]))) \/
  (exists sessionId message response,
     accepted_request request sessionId message /\
     let window :=
       context_window (stored_history (kv w !! sessionKey sessionId)) (trim message) in
     let replyText := nullish_or response (VStr "[no response]") in
     let history := window ++ [ChatMessage "assistant" replyText] in
     infer env (AiInputs window 512 (4 # 10)) = inr response /\
     handleChat request env w
     = (inr (json (VObj {[ "reply" := replyText; "history" := VArr history ]}) 200),
        World (<[sessionKey sessionId := Json (VArr (map json_elem history))]> (kv w))
          (calls w ++
           [KvGet (sessionKey sessionId);
            AiRun MODEL (AiInputs window 512 (4 # 10));
            KvPut (sessionKey sessionId) (Json (VArr (map json_elem history))) TTL])
          (console w))).
Proof.
  destruct (handleChat_cases request env w)
    as [H|[H|(sid & msg & Hacc & H)]]; [by left|by right; left|].
  right; right. rewrite H. unfold chat_outcome.
  destruct (infer env _) as [e|response] eqn:Hinfer.
  - left. exists sid, msg, e. split; [done|]. by rewrite <- app_assoc.
  - right. exists sid, msg, response. split; [done|]. cbn zeta.
    split; [done|]. by rewrite <- !app_assoc.
Qed.

(** X4. [fetch] never throws: every request, whatever the store and the
    backend do, is answered with a response, and its status is one of 200,
    204, 400, 404 and 500. *)
Theorem fetch_always_answers html request env w :
  exists r,
    (fetch html request env w).1 = inr r /\
    status r ∈ [200; 204; 400; 404; 500].
Proof.
  unfold fetch.
  destruct (String.eqb (method request) "OPTIONS").
  { eexists. split; [done|]. set_solver. }
  destruct (String.eqb (pathname request) "/" && _).
  { eexists. split; [done|]. set_solver. }
  destruct (String.eqb (pathname request) "/api/chat" && _).
  2:{ eexists. split; [done|]. set_solver. }
  destruct (handleChat_shapes request env w)
    as [[e ->]|[[reason ->]|[(sid & msg & e & _ & ->)|(sid & msg & resp & _ & _ & ->)]]];
    eexists; (split; [done|]); cbn [status json internal_error bad_request]; set_solver.
Qed.

(** X5. Every answer of the chat handler, success or error, is made by
    [json]: its body is a JSON text, its status is 200, 400 or 500, and it
    carries the JSON content type and the three CORS headers. *)
Theorem chat_answers_are_json request env w :
  exists r v,
    (handleChat request env w).1 = inr r /\
    payload r = Some (Json v) /\
    (status r = 200 \/ status r = 400 \/ status r = 500) /\
    headers r
    = [ ("content-type", "application/json; charset=utf-8");
        ("access-control-allow-origin", "*");
        ("access-control-allow-headers", "Content-Type");
        ("access-control-allow-methods", "POST,OPTIONS") ].
Proof.
  destruct (handleChat_shapes request env w)
    as [[e ->]|[[reason ->]|[(sid & msg & e & _ & ->)|(sid & msg & resp & _ & _ & ->)]]];
    eexists _, _; (split; [reflexivity|]); (split; [reflexivity|]); split; auto.
Qed.

(** X6. The collaborators of a chat request are called in one order: the
    store is read, then the backend is run once, then the store is written
    once. A request stops after no call (and is not answered 200), after
    the first two (and is answered 500), or after all three; it is answered
    200 exactly in the last case, and then the store has changed only by
    that one write, made under the key that was read, with a seven-day
    expiry. *)
Theorem chat_calls_in_order request env w :
  exists r,
    let w' := (handleChat request env w).2 in
    (handleChat request env w).1 = inr r /\
    ((new_calls w w' = [] /\ status r <> 200 /\ kv w' = kv w) \/
     (exists key inputs,
        new_calls w w' = [KvGet key; AiRun MODEL inputs] /\
        status r = 500 /\ kv w' = kv w) \/
     (exists key inputs val,
        new_calls w w' = [KvGet key; AiRun MODEL inputs; KvPut key val (60 * 60 * 24 * 7)] /\
        status r = 200 /\ kv w' = <[key := val]> (kv w))).
Proof.
  destruct (handleChat_shapes request env w)
    as [[e ->]|[[reason ->]|[(sid & msg & e & _ & ->)|(sid & msg & resp & _ & _ & ->)]]];
    eexists; cbn zeta; (split; [reflexivity|]); cbn [fst snd].
  - left. by rewrite new_calls_same.
  - left. by rewrite new_calls_refl.
  - right; left. eexists _, _. by rewrite new_calls_app.
  - right; right. eexists _, _, _. by rewrite new_calls_app.
Qed.

(** X7. The console is written exactly when the answer is the internal
    error: one entry labelled "Chat error" is added with a 500, and nothing
    is logged with any other answer. *)
Theorem console_logs_internal_errors request env w :
  exists r,
    let w' := (handleChat request env w).2 in
    (handleChat request env w).1 = inr r /\
    ((status r = 500 /\ exists e, console w' = console w ++ [("Chat error", e)]) \/
     (status r <> 500 /\ console w' = console w)).
Proof.
  destruct (handleChat_shapes request env w)
    as [[e ->]|[[reason ->]|[(sid & msg & e & _ & ->)|(sid & msg & resp & _ & _ & ->)]]];
    eexists; cbn zeta; (split; [reflexivity|]); cbn [fst snd console].
  - left. split; [done|]. by eexists.
  - by right.
  - left. split; [done|]. by eexists.
  - by right.
Qed.

(** ** Sessions and the store *)

Lemma sessionKey_inj (a b : string) : sessionKey a = sessionKey b -> a = b.
Proof. unfold sessionKey. simpl. by intros [=]. Qed.

(** X8. Sessions are isolated: a chat request of one session leaves every
    other key of the store as it was, and distinct session identifiers have
    distinct keys, so the transcript of any other session is unchanged. *)
Theorem other_sessions_are_untouched request sessionId message env w :
  accepted_request request sessionId message ->
  (forall key, key <> sessionKey sessionId ->
     kv (handleChat request env w).2 !! key = kv w !! key) /\
  (forall other, other <> sessionId ->
     kv (handleChat request env w).2 !! sessionKey other = kv w !! sessionKey other).
Proof.
  intros Hacc.
  assert (forall key, key <> sessionKey sessionId ->
            kv (handleChat request env w).2 !! key = kv w !! key) as Hkeys.
  { intros key Hkey. rewrite (handleChat_accepted _ _ _ _ _ Hacc). unfold chat_outcome.
    destruct (infer env _); cbn [snd kv]; [done|]. by rewrite lookup_insert_ne. }
  split; [exact Hkeys|].
  intros other Hother. apply Hkeys. intros Heq. by apply sessionKey_inj in Heq.
Qed.

Lemma other_sessions_are_untouched_witness :
  kv (handleChat (chat_request "s2" "hello") (answering (VStr "ok")) wizard_world).2
    !! sessionKey "s1"
  = kv wizard_world !! sessionKey "s1".
Proof.
  apply (proj2 (other_sessions_are_untouched (chat_request "s2" "hello") "s2" "hello"
                  (answering (VStr "ok")) wizard_world
                  (chat_request_accepted "s2" "hello" ltac:(discriminate) ltac:(discriminate)))
           "s1").
  discriminate.
Defined.

(** X9. The worker never deletes an entry: every key of the store before a
    request is a key of the store after it. *)
Theorem fetch_never_deletes html request env w :
  dom (kv w) ⊆ dom (kv (fetch html request env w).2).
Proof.
  destruct (chat_route request) eqn:Hroute.
  2:{ by rewrite fetch_off_route. }
  rewrite fetch_chat_route; [|by destruct (String.eqb_spec (method request) "OPTIONS") as [Hm|];
    [unfold chat_route in Hroute; rewrite Hm in Hroute;
     by rewrite andb_false_r in Hroute|]|done].
  destruct (handleChat_shapes request env w)
    as [[e ->]|[[reason ->]|[(sid & msg & e & _ & ->)|(sid & msg & resp & _ & _ & ->)]]];
    cbn [snd kv]; try done.
  apply dom_insert_subseteq.
Qed.

(** ** What the backend is sent *)

Lemma trimHistory_16_length_eq (h : list value) :
  length (trimHistory h MAX_HISTORY_MESSAGES) = (length h `min` 17)%nat.
Proof.
  destruct (decide (length h <= 17)%nat) as [Hle|Hgt].
  - rewrite trimHistory_short; [lia|]. unfold MAX_HISTORY_MESSAGES. lia.
  - destruct h as [|first rest]; [simpl in Hgt; lia|].
    simpl in Hgt. rewrite trimHistory_16_long by lia.
    simpl. rewrite length_drop. lia.
Qed.

Lemma trimHistory_16_snoc (h : list value) (x : value) :
  exists kept, trimHistory (h ++ [x]) MAX_HISTORY_MESSAGES = kept ++ [x].
Proof.
  destruct (decide (length (h ++ [x]) <= 17)%nat) as [Hle|Hgt].
  - exists h. apply trimHistory_short. unfold MAX_HISTORY_MESSAGES. lia.
  - rewrite length_app in Hgt. simpl in Hgt.
    destruct h as [|first rest]; [simpl in Hgt; lia|]. simpl in Hgt.
    change ((first :: rest) ++ [x]) with (first :: (rest ++ [x])).
    rewrite trimHistory_16_long by (rewrite length_app; simpl; lia).
    rewrite length_app. simpl length.
    rewrite drop_app_le by lia.
    by exists (first :: drop (length rest + 1 - 16) rest).
Qed.

Lemma context_window_user (loaded : list value) (userMessage : string) :
  exists kept,
    context_window loaded userMessage = kept ++ [ChatMessage "user" (VStr userMessage)].
Proof. unfold context_window. apply trimHistory_16_snoc. Qed.

Lemma context_window_length (loaded : list value) (userMessage : string) :
  (2 <= length (context_window loaded userMessage) <= 17)%nat.
Proof.
  unfold context_window. rewrite trimHistory_16_length_eq.
  destruct loaded as [|first rest]; cbn [length Nat.eqb app].
  - lia.
  - rewrite length_app. simpl. lia.
Qed.

(** X10. Whatever the store holds, the backend is run with the fixed model
    and a limit of 512 tokens, on at least 2 and at most 17 messages, the
    last of which is the user turn with the trimmed message of the
    request. *)
Theorem backend_context_is_bounded request env w model inputs :
  AiRun model inputs ∈ new_calls w (handleChat request env w).2 ->
  model = "@cf/meta/llama-3.3-70b-instruct-fp8-fast" /\
  max_tokens inputs = 512 /\
  (2 <= length (messages inputs) <= 17)%nat /\
  exists sessionId message,
    accepted_request request sessionId message /\
    last (messages inputs) = Some (ChatMessage "user" (VStr (trim message))).
Proof.
  intros Hcall.
  assert (exists sid msg,
            accepted_request request sid msg /\
            AiRun model inputs
            = AiRun MODEL
                (AiInputs (context_window (stored_history (kv w !! sessionKey sid)) (trim msg))
                   512 (4 # 10))) as (sid & msg & Hacc & Heq).
  { destruct (handleChat_shapes request env w)
      as [[e H]|[[reason H]|[(sid & msg & e & Hacc & H)|(sid & msg & resp & Hacc & _ & H)]]];
      rewrite H in Hcall; cbn [snd] in Hcall.
    - rewrite new_calls_same in Hcall. by apply elem_of_nil in Hcall.
    - rewrite new_calls_refl in Hcall. by apply elem_of_nil in Hcall.
    - rewrite new_calls_app in Hcall. exists sid, msg. split; [done|].
      repeat (apply elem_of_cons in Hcall as [Hcall|Hcall]; try done).
      by apply elem_of_nil in Hcall.
    - rewrite new_calls_app in Hcall. exists sid, msg. split; [done|].
      repeat (apply elem_of_cons in Hcall as [Hcall|Hcall]; try done).
      by apply elem_of_nil in Hcall. }
  injection Heq as -> ->. cbn [max_tokens messages].
  split; [done|]. split; [done|]. split; [apply context_window_length|].
  exists sid, msg. split; [done|].
  destruct (context_window_user (stored_history (kv w !! sessionKey sid)) (trim msg))
    as [kept ->].
  apply last_snoc.
Qed.

Lemma backend_context_is_bounded_witness :
  (2 <= length (messages (AiInputs [preamble; ChatMessage "user" (VStr "hello")]
                            512 (4 # 10))) <= 17)%nat /\
  (2 <= length (messages (AiInputs (preamble :: map sample_turn (seq 2 15)
                                      ++ [ChatMessage "user" (VStr "hello")])
                            512 (4 # 10))) <= 17)%nat.
Proof.
  split.
  - apply (backend_context_is_bounded (chat_request "s1" "  hello ") failing initial MODEL
             (AiInputs [preamble; ChatMessage "user" (VStr "hello")] 512 (4 # 10))).
    apply list_elem_of_further, list_elem_of_here.
  - apply (backend_context_is_bounded (chat_request "s1" "  hello ") failing
             (World {[ "session:s1" := Json (VArr (sample_transcript 17)) ]} [] [])
             MODEL
             (AiInputs (preamble :: map sample_turn (seq 2 15)
                          ++ [ChatMessage "user" (VStr "hello")]) 512 (4 # 10))).
    apply list_elem_of_further, list_elem_of_here.
Defined.

(** ** What is answered and what is stored *)

Lemma to_json_not_undefined (v : value) : v <> VUndef -> exists j, to_json v = Some j.
Proof. destruct v; intros; try done; by eexists. Qed.

(** X11. A successful answer shows what was stored: the [history] of its
    body is the array persisted for the session, whose last two turns are
    the user turn with the trimmed message and the assistant turn, and the
    [reply] of its body is the content of that assistant turn. *)
Theorem answer_shows_what_is_stored request env w r :
  (handleChat request env w).1 = inr r ->
  status r = 200 ->
  exists sessionId message answer older reply,
    accepted_request request sessionId message /\
    payload r = Some (Json answer) /\
    kv (handleChat request env w).2 !! sessionKey sessionId
    = Some (Json (VArr (older ++ [ChatMessage "user" (VStr (trim message)); reply]))) /\
    field answer "history"
    = VArr (older ++ [ChatMessage "user" (VStr (trim message)); reply]) /\
    turn_role reply = Some "assistant" /\
    turn_content reply = field answer "reply".
Proof.
  intros Hr Hok.
  destruct (handleChat_shapes request env w)
    as [[e H]|[[reason H]|[(sid & msg & e & _ & H)|(sid & msg & resp & Hacc & _ & H)]]];
    rewrite H in Hr |- *; cbn [fst snd] in *; injection Hr as <-; try discriminate Hok.
  destruct (context_window_user (stored_history (kv w !! sessionKey sid)) (trim msg))
    as [kept Hkept].
  set (replyText := nullish_or resp (VStr "[no response]")).
  exists sid, msg,
    (VObj (omap to_json
             {[ "reply" := replyText;
                "history" := VArr (context_window (stored_history (kv w !! sessionKey sid))
                                     (trim msg)
                                   ++ [ChatMessage "assistant" replyText]) ]})),
    (map json_elem kept), (json_elem (ChatMessage "assistant" replyText)).
  split; [done|]. split; [reflexivity|].
  assert (map json_elem
            (context_window (stored_history (kv w !! sessionKey sid)) (trim msg)
             ++ [ChatMessage "assistant" replyText])
          = map json_elem kept
            ++ [ChatMessage "user" (VStr (trim msg));
                json_elem (ChatMessage "assistant" replyText)]) as Hstored.
  { rewrite Hkept, <- app_assoc, !map_app. cbn [map app].
    by rewrite json_elem_ChatMessage_text. }
  split; [cbn [kv]; by rewrite lookup_insert_eq, Hstored|].
  split.
  { unfold field. rewrite lookup_omap, lookup_insert_ne, lookup_singleton_eq by done.
    cbn [mbind option_bind to_json default]. by rewrite <- Hstored. }
  split; [by rewrite turn_role_json_elem|].
  unfold field, turn_content, json_elem, ChatMessage.
  cbn [to_json default from_option id].
  rewrite !lookup_omap, lookup_insert_eq, lookup_insert_ne, lookup_singleton_eq by done.
  reflexivity.
Qed.

Lemma answer_shows_what_is_stored_witness :
  exists sessionId message answer older reply,
    accepted_request (chat_request "s1" " hello ") sessionId message /\
    payload (json (VObj {[ "reply" := VStr "ok";
                           "history" := VArr [preamble; ChatMessage "user" (VStr "hello");
                                              ChatMessage "assistant" (VStr "ok")] ]}) 200)
    = Some (Json answer) /\
    kv (handleChat (chat_request "s1" " hello ") (answering (VStr "ok")) initial).2
      !! sessionKey sessionId
    = Some (Json (VArr (older ++ [ChatMessage "user" (VStr (trim message)); reply]))) /\
    field answer "history"
    = VArr (older ++ [ChatMessage "user" (VStr (trim message)); reply]) /\
    turn_role reply = Some "assistant" /\
    turn_content reply = field answer "reply".
Proof.
  apply (answer_shows_what_is_stored (chat_request "s1" " hello ") (answering (VStr "ok"))
           initial).
  - vm_compute. reflexivity.
  - reflexivity.
Defined.

(** ** Saving and loading *)

Lemma map_json_elem_text_turns (h : list value) :
  Forall text_turn h -> map json_elem h = h.
Proof.
  induction 1 as [|t h (role & content & ->) _ IH]; [done|].
  cbn [map]. by rewrite IH, json_elem_ChatMessage_text.
Qed.

(** X12. Saving then loading is a round trip: what [loadHistory] returns
    after [saveHistory] is the saved array as JSON writes it, and for turns
    whose content is text it is the saved history itself. The entry of
    another session is read as before the save. *)
Theorem save_then_load env sessionId history w :
  (loadHistory env sessionId (saveHistory env sessionId history w).2).1
  = inr (map json_elem history) /\
  (Forall text_turn history ->
   (loadHistory env sessionId (saveHistory env sessionId history w).2).1 = inr history) /\
  (forall other, other <> sessionId ->
     (loadHistory env other (saveHistory env sessionId history w).2).1
     = (loadHistory env other w).1).
Proof.
  rewrite saveHistory_run. cbn [snd].
  split; [|split].
  - rewrite loadHistory_run. cbn [fst kv]. by rewrite lookup_insert_eq.
  - intros Htext. rewrite loadHistory_run. cbn [fst kv].
    by rewrite lookup_insert_eq, (map_json_elem_text_turns _ Htext).
  - intros other Hother. rewrite !loadHistory_run. cbn [fst kv].
    rewrite lookup_insert_ne; [done|]. intros Heq. by apply sessionKey_inj in Heq.
Qed.

Lemma save_then_load_witness :
  (loadHistory failing "s1" (saveHistory failing "s1" (sample_transcript 3) wizard_world).2).1
  = inr (sample_transcript 3) /\
  (loadHistory failing "s1" (saveHistory failing "s2" (sample_transcript 3) wizard_world).2).1
  = (loadHistory failing "s1" wizard_world).1.
Proof.
  split.
  - apply (proj1 (proj2 (save_then_load failing "s1" (sample_transcript 3) wizard_world))).
    repeat constructor; by eexists _, _.
  - apply (proj2 (proj2 (save_then_load failing "s2" (sample_transcript 3) wizard_world))).
    discriminate.
Defined.

(** X13. [loadHistory] only reads: for every content of the store it
    returns a list without throwing, makes the single call [get] for the
    key of the session, and leaves store and console as they were. A
    stored JSON array is returned with all its elements, whatever they are
    and however many. *)
Theorem loadHistory_only_reads env sessionId w :
  let run := loadHistory env sessionId w in
  (exists h, run.1 = inr h) /\
  new_calls w run.2 = [KvGet (String.append "session:" sessionId)] /\
  kv run.2 = kv w /\
  console run.2 = console w /\
  (forall elements,
     kv w !! sessionKey sessionId = Some (Json (VArr elements)) -> run.1 = inr elements).
Proof.
  cbn zeta. rewrite loadHistory_run. cbn [fst snd kv console].
  split; [by eexists|]. split; [by rewrite new_calls_app|].
  split; [done|]. split; [done|].
  by intros elements ->.
Qed.

Lemma loadHistory_only_reads_witness :
  (loadHistory failing "s1" wizard_world).1 = inr [ChatMessage "wizard" (VStr "hi")].
Proof.
  apply (proj2 (proj2 (proj2 (proj2 (loadHistory_only_reads failing "s1" wizard_world))))).
  reflexivity.
Defined.

(** ** [trimHistory] for every bound *)

Lemma trimHistory_cons (first : value) (rest : list value) (n : nat) :
  (0 < n)%nat ->
  trimHistory (first :: rest) (Z.of_nat n) = first :: drop (length rest - n) rest.
Proof.
  intros Hn. destruct (decide (length rest <= n)%nat) as [Hle|Hgt].
  - rewrite trimHistory_short by (simpl length; lia).
    by replace (length rest - n)%nat with 0%nat by lia.
  - apply trimHistory_long; lia.
Qed.

(** X14. A bound of zero does not trim: since [-0] is [0], [slice(-0)]
    keeps the whole remainder, and [trimHistory] returns every history
    unchanged, however long. *)
Theorem trimHistory_zero_keeps_all (h : list value) : trimHistory h 0 = h.
Proof.
  unfold trimHistory.
  destruct (Z.leb_spec (Z.of_nat (length h)) (0 + 1)) as [_|Hgt]; [done|].
  destruct h as [|first rest]; [simpl in Hgt; lia|].
  rewrite slice_one. unfold slice. change (- 0 <? 0)%Z with false. cbn iota.
  replace (Z.min (- 0) (Z.of_nat (length rest))) with 0%Z by lia.
  reflexivity.
Qed.

(** X15. For every bound N of at least 1, the result of [trimHistory] has
    the length of the history capped at N + 1, it begins with the first
    turn of the history and ends with its last turn, its other turns are
    the last ones of the history in their order, and trimming it again
    changes nothing. *)
Theorem trimHistory_for_every_bound (h : list value) (n : nat) :
  (1 <= n)%nat ->
  length (trimHistory h (Z.of_nat n)) = (length h `min` (n + 1))%nat /\
  head (trimHistory h (Z.of_nat n)) = head h /\
  last (trimHistory h (Z.of_nat n)) = last h /\
  (exists dropped, tail h = dropped ++ tail (trimHistory h (Z.of_nat n))) /\
  trimHistory (trimHistory h (Z.of_nat n)) (Z.of_nat n) = trimHistory h (Z.of_nat n).
Proof.
  intros Hn. destruct h as [|first rest].
  { rewrite !trimHistory_short by (simpl; lia).
    split; [done|]. split; [done|]. split; [done|]. split; [by exists []|done]. }
  rewrite trimHistory_cons by lia.
  assert (length (drop (length rest - n) rest) = (length rest `min` n)%nat) as Hlen
    by (rewrite length_drop; lia).
  split; [cbn [length]; rewrite Hlen; lia|]. split; [done|]. split.
  - destruct rest as [|second rest']; [done|].
    pose proof (take_drop (length (second :: rest') - n) (second :: rest')) as Hsplit.
    destruct (drop _ (second :: rest')) as [|x kept] eqn:Hkept.
    + cbn [length] in Hlen. lia.
    + rewrite <- Hsplit.
      by rewrite last_cons_cons, app_comm_cons, last_app_cons.
  - split.
    + exists (take (length rest - n) rest). cbn [tail]. by rewrite take_drop.
    + rewrite trimHistory_cons by lia.
      by replace (length (drop (length rest - n) rest) - n)%nat with 0%nat by lia.
Qed.

Lemma trimHistory_for_every_bound_witness :
  length (trimHistory (sample_transcript 5) (Z.of_nat 2)) = 3%nat /\
  last (trimHistory (sample_transcript 5) (Z.of_nat 2)) = last (sample_transcript 5).
Proof.
  destruct (trimHistory_for_every_bound (sample_transcript 5) 2) as (Hlen & _ & Hlast & _).
  - lia.
  - split; [exact Hlen | exact Hlast].
Defined.

(** ** Trimming and the page *)

Lemma trimEnd_idempotent (s : string) : trimEnd (trimEnd s) = trimEnd s.
Proof.
  induction s as [|a s IH]; [done|]. cbn [trimEnd].
  destruct (trimEnd s) as [|b r] eqn:Hr.
  - destruct (is_space a) eqn:Ha; [done|]. cbn [trimEnd]. by rewrite Ha.
  - cbn [trimEnd]. cbn [trimEnd] in IH. by rewrite IH.
Qed.

Lemma trimStart_clean (s : string) :
  match trimStart s with
  | EmptyString => True
  | String a _ => is_space a = false
  end.
Proof.
  induction s as [|a s IH]; [done|]. cbn [trimStart].
  by destruct (is_space a) eqn:Ha.
Qed.

Lemma trimStart_trimEnd_clean (s : string) :
  match s with
  | EmptyString => True
  | String a _ => is_space a = false
  end ->
  trimStart (trimEnd s) = trimEnd s.
Proof.
  destruct s as [|a s]; [done|]. intros Ha. cbn [trimEnd].
  destruct (trimEnd s); rewrite ?Ha; cbn [trimStart]; by rewrite Ha.
Qed.

Lemma trim_idempotent (s : string) : trim (trim s) = trim s.
Proof.
  unfold trim. rewrite trimStart_trimEnd_clean by apply trimStart_clean.
  apply trimEnd_idempotent.
Qed.




(** X17. The page sends nothing for an input that is empty or white space
    only. For any other input, and a session identifier that is not empty,
    the request it sends is a POST to the chat route that the handler
    accepts, and the user turn given to the backend holds exactly the
    trimmed input, which is not empty. *)
Theorem page_sends_only_text sessionId input :
  sessionId <> "" ->
  (page_submit sessionId input = None <-> trim input = "") /\
  (forall request,
     page_submit sessionId input = Some request ->
     chat_route request = true /\
     accepted_request request sessionId (trim input) /\
     nonempty_text (VStr (trim input)) = true /\
     forall env w,
       exists kept,
         AiRun MODEL
           (AiInputs (kept ++ [ChatMessage "user" (VStr (trim input))]) 512 (4 # 10))
           ∈ new_calls w (handleChat request env w).2).
Proof.
  intros Hsid. unfold page_submit. cbn zeta.
  destruct (trim input) as [|a text] eqn:Htrim; cbn [truthy String.eqb negb].
  { split; [done|]. intros request [=]. }
  split; [split; intros [=]|].
  intros request [= <-].
  assert (accepted_request (chat_request sessionId (String a text)) sessionId (String a text))
    as Hacc by (by apply chat_request_accepted).
  split; [done|]. split; [exact Hacc|]. split; [done|].
  intros env w.
  destruct (context_window_user (stored_history (kv w !! sessionKey sessionId))
              (String a text)) as [kept Hkept].
  exists kept.
  change (default (NotJson "") (JSON_stringify _))
    with (body (chat_request sessionId (String a text))).
  change (MkRequest "POST" "/api/chat" (body (chat_request sessionId (String a text))))
    with (chat_request sessionId (String a text)).
  rewrite (handleChat_accepted _ _ _ _ _ Hacc), <- Hkept.
  assert (String a text = trim (String a text)) as Heq
    by (by rewrite <- Htrim, trim_idempotent).
  rewrite Heq at 1. apply chat_outcome_asks.
Qed.

Lemma page_sends_only_text_witness :
  page_submit "sess_1" "   " = None /\
  chat_route (chat_request "sess_1" "hello") = true.
Proof.
  destruct (page_sends_only_text "sess_1" "   " ltac:(discriminate)) as [Hnone _].
  destruct (page_sends_only_text "sess_1" " hello " ltac:(discriminate)) as [_ Hsome].
  split.
  - apply Hnone. reflexivity.
  - apply (Hsome (chat_request "sess_1" "hello")). reflexivity.
Defined.

(** ** The shape of stored transcripts *)

Lemma alternating_tail (a : value) (l : list value) :
  alternating (a :: l) -> alternating l.
Proof. destruct l; [done|]. by intros [_ ?]. Qed.

Lemma alternating_drop (n : nat) (l : list value) :
  alternating l -> alternating (drop n l).
Proof.
  revert l. induction n as [|n IH]; intros [|a l] Hl; try done.
  cbn [drop]. apply IH. by eapply alternating_tail.
Qed.

Lemma alternating_snoc (l : list value) (x : value) :
  alternating l ->
  (l = [] /\ (turn_role x = Some "user" \/ turn_role x = Some "assistant")) \/
  ((turn_role <$> last l) = Some (Some "user") /\ turn_role x = Some "assistant") \/
  ((turn_role <$> last l) = Some (Some "assistant") /\ turn_role x = Some "user") ->
  alternating (l ++ [x]).
Proof.
  induction l as [|a l IH]; intros Hl Hx.
  { destruct Hx as [[_ Hx]|[[[=] _]|[[=] _]]]. exact Hx. }
  destruct l as [|b l].
  - cbn [app alternating]. split; [|destruct Hx as [[[=] _]|[[_ ->]|[_ ->]]]; auto].
    cbn [last fmap option_fmap option_map] in Hx.
    destruct Hx as [[[=] _]|[[[= ->] ->]|[[= ->] ->]]]; auto.
  - destruct Hl as [Hab Hl]. change ((a :: b :: l) ++ [x]) with (a :: (b :: l) ++ [x]).
    cbn [alternating app]. split; [exact Hab|].
    apply IH; [exact Hl|]. right.
    rewrite last_cons_cons in Hx. destruct Hx as [[[=] _]|Hx]. exact Hx.
Qed.

Lemma alternating_cons_cons (a b : value) (l : list value) :
  alternating (a :: b :: l) <->
  ((turn_role a = Some "user" /\ turn_role b = Some "assistant") \/
   (turn_role a = Some "assistant" /\ turn_role b = Some "user"))
  /\ alternating (b :: l).
Proof. done. Qed.

Lemma alternating_json (l : list value) :
  alternating l -> alternating (map json_elem l).
Proof.
  induction l as [|a l IH]; [done|]. destruct l as [|b l].
  - cbn [map alternating]. by rewrite turn_role_json_elem.
  - intros [Hab Hl]%alternating_cons_cons. specialize (IH Hl).
    change (map json_elem (a :: b :: l))
      with (json_elem a :: json_elem b :: map json_elem l).
    apply alternating_cons_cons. split; [by rewrite !turn_role_json_elem|exact IH].
Qed.

Lemma last_drop_lt {A} (n : nat) (l : list A) :
  (n < length l)%nat -> last (drop n l) = last l.
Proof.
  intros Hn. rewrite <- (take_drop n l) at 2.
  destruct (drop n l) as [|x k] eqn:Hk.
  - apply (f_equal length) in Hk. rewrite length_drop in Hk. simpl in Hk. lia.
  - by rewrite last_app_cons.
Qed.

(** The transcript persisted after a successful turn, from the one that
    was loaded. *)
Lemma persisted_settled (loaded : list value) (userMessage : string) (reply : value) :
  loaded = [] \/ settled loaded ->
  settled (map json_elem
             (context_window loaded userMessage ++ [ChatMessage "assistant" reply])).
Proof.
  intros Hloaded. unfold context_window.
  assert (exists first rest,
            (if (length loaded =? 0)%nat
             then loaded ++ [ChatMessage "system" (VStr (trim SYSTEM_PROMPT))]
             else loaded) = first :: rest /\
            is_instruction first = true /\
            alternating rest /\
            (rest = [] \/ (turn_role <$> last rest) = Some (Some "assistant")))
    as (first & rest & -> & Hfirst & Halt & Hlast).
  { destruct Hloaded as [->|(first & rest & -> & Hfirst & Halt & Hlast)].
    - eexists _, []. cbn [length Nat.eqb app]. repeat split; auto.
    - exists first, rest. cbn [length Nat.eqb]. repeat split; auto. }
  change ((first :: rest) ++ [ChatMessage "user" (VStr userMessage)])
    with (first :: (rest ++ [ChatMessage "user" (VStr userMessage)])).
  change MAX_HISTORY_MESSAGES with (Z.of_nat 16). rewrite trimHistory_cons by lia.
  set (l := rest ++ [ChatMessage "user" (VStr userMessage)]).
  assert (alternating l) as Hl.
  { apply alternating_snoc; [exact Halt|]. destruct Hlast as [->|Hlast]; [left|right; right]; auto. }
  assert (last (drop (length l - 16) l) = Some (ChatMessage "user" (VStr userMessage)))
    as Hdrop.
  { rewrite last_drop_lt.
    - apply last_snoc.
    - unfold l. rewrite length_app. simpl. lia. }
  exists (json_elem first),
    (map json_elem (drop (length l - 16) l ++ [ChatMessage "assistant" reply])).
  split; [done|]. split; [by rewrite is_instruction_json_elem|]. split.
  - apply alternating_json, alternating_snoc; [by apply alternating_drop|].
    right; left. by rewrite Hdrop.
  - rewrite map_app. cbn [map]. rewrite last_snoc.
    cbn [fmap option_fmap option_map]. by rewrite turn_role_json_elem.
Qed.

Lemma persisted_length (loaded : list value) (userMessage : string) (reply : value) :
  length (map json_elem
            (context_window loaded userMessage ++ [ChatMessage "assistant" reply]))
  = ((length loaded `max` 1 + 2) `min` 18)%nat.
Proof.
  rewrite length_map, length_app. unfold context_window.
  rewrite trimHistory_16_length_eq.
  destruct loaded as [|first rest]; cbn [length Nat.eqb app].
  - lia.
  - rewrite length_app. simpl. lia.
Qed.

(** An invariant of the persisted transcripts holds in every reachable
    store. *)
Lemma reachable_store_invariant (P : list value -> Prop) :
  (forall loaded userMessage reply,
     loaded = [] \/ P loaded ->
     P (map json_elem
          (context_window loaded userMessage ++ [ChatMessage "assistant" reply]))) ->
  forall w, reachable w ->
  forall key t, kv w !! key = Some t -> exists h, t = Json (VArr h) /\ P h.
Proof.
  intros Hstep w Hreach.
  refine (rtc_ind_r
            (fun w => forall key t, kv w !! key = Some t ->
                                    exists h, t = Json (VArr h) /\ P h)
            initial _ _ w Hreach).
  - intros key t Hk. cbn [initial kv] in Hk. by rewrite lookup_empty in Hk.
  - intros w1 w2 _ [html request env r w3 w4 Hrun|key0 w3] IH key t Hk.
    + destruct (chat_route request) eqn:Hroute.
      2:{ pose proof (fetch_off_route html request env w3 Hroute) as Hw.
          rewrite Hrun in Hw. cbn [snd] in Hw. subst w4. by eapply IH. }
      assert (String.eqb (method request) "OPTIONS" = false) as Hopt.
      { unfold chat_route in Hroute. apply andb_true_iff in Hroute as [_ Hm].
        apply String.eqb_eq in Hm. by rewrite Hm. }
      rewrite (fetch_chat_route _ _ _ _ Hopt Hroute) in Hrun.
      destruct (handleChat_shapes request env w3)
        as [[e H]|[[reason H]|[(sid & msg & e & _ & H)|(sid & msg & resp & _ & _ & H)]]];
        rewrite H in Hrun; injection Hrun as _ <-; cbn [kv] in Hk;
        try (by eapply IH).
      apply lookup_insert_Some in Hk as [[_ <-]|[_ Hk]]; [|by eapply IH].
      eexists. split; [done|]. apply Hstep.
      destruct (kv w3 !! sessionKey sid) as [t0|] eqn:Hk0; [|by left].
      destruct (IH _ _ Hk0) as (h0 & -> & Hh0). by right.
    + cbn [kv] in Hk. apply lookup_delete_Some in Hk as [_ Hk]. by eapply IH.
Qed.

(** X18. In every store the system can reach from the empty one, each
    transcript has between 3 and 18 entries: the instruction turn, then
    user and assistant turns that alternate, the last one by the
    assistant. *)
Theorem reachable_transcripts_are_settled w key t :
  reachable w ->
  kv w !! key = Some t ->
  exists h, t = Json (VArr h) /\ settled h /\ (3 <= length h <= 18)%nat.
Proof.
  intros Hreach Hk.
  destruct (reachable_store_invariant
              (fun h => settled h /\ (3 <= length h <= 18)%nat)) with (w := w)
    (key := key) (t := t) as (h & -> & Hh); [|done|done|by exists h].
  intros loaded u reply Hloaded. split.
  - apply persisted_settled. destruct Hloaded as [->|[? _]]; auto.
  - rewrite persisted_length. lia.
Qed.

Lemma reachable_transcripts_are_settled_witness :
  exists h,
    Json (VArr [preamble;
                ChatMessage "user" (VStr "0"); ChatMessage "assistant" (VStr "ok");
                ChatMessage "user" (VStr "1"); ChatMessage "assistant" (VStr "ok")])
    = Json (VArr h) /\
    settled h /\ (3 <= length h <= 18)%nat.
Proof.
  apply (reachable_transcripts_are_settled (chat_rounds 2) "session:s1").
  - apply reachable_chat, reachable_chat, rtc_refl.
  - vm_compute. reflexivity.
Defined.

(** X19. How a transcript grows: a successful turn on a session whose
    loaded transcript has n entries persists n + 2 entries, capped at 18;
    on a session with nothing loaded it persists 3. *)
Theorem transcript_growth request sessionId message env w r :
  accepted_request request sessionId message ->
  (handleChat request env w).1 = inr r ->
  status r = 200 ->
  exists stored,
    kv (handleChat request env w).2 !! sessionKey sessionId = Some (Json (VArr stored)) /\
    length stored
    = ((length (stored_history (kv w !! sessionKey sessionId)) `max` 1 + 2) `min` 18)%nat.
Proof.
  intros Hacc Hr Hok.
  rewrite (handleChat_accepted _ _ _ _ _ Hacc) in Hr |- *. unfold chat_outcome in *.
  destruct (infer env _) as [e|response]; cbn [fst snd kv] in *;
    injection Hr as <-; [discriminate Hok|].
  eexists. split; [by rewrite lookup_insert_eq|]. apply persisted_length.
Qed.

Lemma transcript_growth_witness :
  exists stored,
    kv (handleChat (chat_request "s1" "hello") (answering (VStr "ok")) wizard_world).2
      !! sessionKey "s1" = Some (Json (VArr stored)) /\
    length stored
    = ((length (stored_history (kv wizard_world !! sessionKey "s1")) `max` 1 + 2) `min` 18)%nat.
Proof.
  apply (transcript_growth (chat_request "s1" "hello") "s1" "hello" (answering (VStr "ok"))
           wizard_world
           (json (VObj {[ "reply" := VStr "ok";
                          "history" := VArr [ChatMessage "wizard" (VStr "hi");
                                             ChatMessage "user" (VStr "hello");
                                             ChatMessage "assistant" (VStr "ok")] ]}) 200)).
  - apply chat_request_accepted; discriminate.
  - vm_compute. reflexivity.
  - reflexivity.
Defined.

(** ** Validation, seen from the collaborators *)

(** The verdict on a request does not depend on the store or the backend. *)
Lemma request_cases request :
  (exists e, forall env w,
     handleChat request env w
     = (inr internal_error, World (kv w) (calls w) (console w ++ [("Chat error", e)]))) \/
  (exists reason, forall env w,
     handleChat request env w = (inr (bad_request reason), w)) \/
  (exists sessionId message, accepted_request request sessionId message).
Proof.
  destruct (body request) as [s|b] eqn:Hbody.
  { left. eexists. intros. by eapply handleChat_unparseable. }
  destruct (get b "sessionId") as [e|v] eqn:Hsid.
  { left. eexists. intros. by eapply handleChat_no_fields. }
  destruct (accepted v) eqn:Hv.
  2:{ right; left. eexists. intros. by eapply handleChat_bad_session. }
  destruct (get_total_after b "sessionId" "message" v Hsid) as [v' Hmsg].
  destruct (accepted v') eqn:Hv'.
  2:{ right; left. eexists. intros. by eapply handleChat_bad_message. }
  right; right.
  apply accepted_inv in Hv as (sid & -> & Hne1).
  apply accepted_inv in Hv' as (msg & -> & Hne2).
  exists sid, msg. by exists b.
Qed.

Lemma accepted_asks request sessionId message env w :
  accepted_request request sessionId message ->
  AiRun MODEL
    (AiInputs (context_window (stored_history (kv w !! sessionKey sessionId)) (trim message))
       512 (4 # 10))
  ∈ new_calls w (handleChat request env w).2.
Proof.
  intros Hacc. rewrite (handleChat_accepted _ _ _ _ _ Hacc). apply chat_outcome_asks.
Qed.

(** X20. The handler reaches its collaborators exactly for the requests
    whose body parses to a value with a non-empty string [sessionId] and a
    non-empty string [message]; its first call is then the read of the key
    of that session. Nothing else of the request matters: two such
    requests with the same two fields are handled alike. *)
Theorem collaborators_are_reached_iff_accepted request env w :
  (new_calls w (handleChat request env w).2 <> [] <->
   exists sessionId message, accepted_request request sessionId message) /\
  (forall sessionId message,
     accepted_request request sessionId message ->
     head (new_calls w (handleChat request env w).2) = Some (KvGet (sessionKey sessionId)) /\
     forall request',
       accepted_request request' sessionId message ->
       handleChat request' env w = handleChat request env w).
Proof.
  split.
  - destruct (request_cases request) as [[e H]|[[reason H]|(sid & msg & Hacc)]].
    + rewrite H. cbn [snd]. rewrite new_calls_same. split; [done|].
      intros (sid & msg & Hacc). pose proof (accepted_asks _ _ _ env w Hacc) as Hin.
      rewrite H in Hin. cbn [snd] in Hin. rewrite new_calls_same in Hin.
      by apply elem_of_nil in Hin.
    + rewrite H. cbn [snd]. rewrite new_calls_refl. split; [done|].
      intros (sid & msg & Hacc). pose proof (accepted_asks _ _ _ env w Hacc) as Hin.
      rewrite H in Hin. cbn [snd] in Hin. rewrite new_calls_refl in Hin.
      by apply elem_of_nil in Hin.
    + split; [by eauto|]. intros _ Hnil.
      pose proof (accepted_asks _ _ _ env w Hacc) as Hin. rewrite Hnil in Hin.
      by apply elem_of_nil in Hin.
  - intros sid msg Hacc. split.
    + rewrite (handleChat_accepted _ _ _ _ _ Hacc). unfold chat_outcome.
      destruct (infer env _); cbn [snd]; by rewrite <- ?app_assoc, new_calls_app.
    + intros request' Hacc'.
      by rewrite (handleChat_accepted _ _ _ _ _ Hacc), (handleChat_accepted _ _ _ _ _ Hacc').
Qed.

Lemma collaborators_are_reached_iff_accepted_witness :
  handleChat (MkRequest "PUT" "/elsewhere"
                (Json (VObj {[ "sessionId" := VStr "s1"; "message" := VStr "hello";
                               "extra" := VNum 1 ]})))
    failing initial
  = handleChat (chat_request "s1" "hello") failing initial.
Proof.
  apply (proj2 (collaborators_are_reached_iff_accepted (chat_request "s1" "hello")
                  failing initial) "s1" "hello").
  - apply chat_request_accepted; discriminate.
  - eexists. split; [reflexivity|]. by repeat split.
Defined.

(** ** A backend that returns nothing to read *)

(** X21. When the backend returns [null] or [undefined] instead of a
    result object, reading its [response] throws: the request is answered
    with the internal error, a [TypeError] is logged, and nothing is
    written to the store. *)
Theorem null_result_is_internal_error request sessionId message env w aiResponse :
  let key := sessionKey sessionId in
  let inputs :=
    AiInputs (context_window (stored_history (kv w !! key)) (trim message)) 512 (4 # 10) in
  accepted_request request sessionId message ->
  AI env MODEL inputs = inr aiResponse ->
  has_fields aiResponse = false ->
  handleChat request env w
  = (inr internal_error,
     World (kv w) (calls w ++ [KvGet key; AiRun MODEL inputs])
       (console w ++ [("Chat error", TypeError)])).
Proof.
  intros key inputs Hacc Hai Hnull.
  rewrite (handleChat_accepted _ _ _ _ _ Hacc). unfold chat_outcome, infer.
  fold key. fold inputs. rewrite Hai, (get_no_fields _ _ Hnull).
  by rewrite <- app_assoc.
Qed.

Lemma null_result_is_internal_error_witness :
  handleChat (chat_request "s1" "hello") (MkEnv (fun _ _ => inr VNull)) initial
  = (inr internal_error,
     World ∅
       [KvGet "session:s1";
        AiRun MODEL (AiInputs [preamble; ChatMessage "user" (VStr "hello")] 512 (4 # 10))]
       [("Chat error", TypeError)]).
Proof.
  apply (null_result_is_internal_error (chat_request "s1" "hello") "s1" "hello"
           (MkEnv (fun _ _ => inr VNull)) initial VNull).
  - apply chat_request_accepted; discriminate.
  - reflexivity.
  - reflexivity.
Defined.

(** ** No state but the store *)

Lemma handleChat_store_only request env w1 w2 :
  kv w1 = kv w2 ->
  (handleChat request env w1).1 = (handleChat request env w2).1 /\
  kv (handleChat request env w1).2 = kv (handleChat request env w2).2 /\
  new_calls w1 (handleChat request env w1).2 = new_calls w2 (handleChat request env w2).2.
Proof.
  intros Hkv.
  destruct (request_cases request) as [[e H]|[[reason H]|(sid & msg & Hacc)]].
  - rewrite !H. cbn [fst snd kv]. by rewrite !new_calls_same.
  - rewrite !H. cbn [fst snd]. by rewrite !new_calls_refl.
  - rewrite !(handleChat_accepted _ _ _ _ _ Hacc). unfold chat_outcome. rewrite Hkv.
    destruct (infer env _); cbn [fst snd kv]; by rewrite <- ?app_assoc, !new_calls_app.
Qed.

(** X22. The handler keeps no state of its own: the answer to a request,
    the store it leaves and the collaborator calls it makes depend on the
    content of the store only, not on what was called or logged before. *)
Theorem handler_state_is_the_store request env w1 w2 :
  kv w1 = kv w2 ->
  (handleChat request env w1).1 = (handleChat request env w2).1 /\
  kv (handleChat request env w1).2 = kv (handleChat request env w2).2 /\
  new_calls w1 (handleChat request env w1).2 = new_calls w2 (handleChat request env w2).2.
Proof.
  intros Hkv.
  destruct (request_cases request) as [[e H]|[[reason H]|(sid & msg & Hacc)]].
  - rewrite !H. cbn [fst snd kv]. rewrite !new_calls_same. by rewrite Hkv.
  - rewrite !H. cbn [fst snd]. by rewrite !new_calls_refl.
  - rewrite !(handleChat_accepted _ _ _ _ _ Hacc). unfold chat_outcome. rewrite Hkv.
    destruct (infer env _) as [e|response]; cbn [fst snd kv];
      rewrite <- ?app_assoc, !new_calls_app; by rewrite ?Hkv.
Qed.

Lemma handler_state_is_the_store_witness :
  (handleChat (chat_request "s1" "hello") (answering (VStr "ok"))
     (World ∅ [KvGet "session:s9"] [("Chat error", SyntaxError)])).1
  = (handleChat (chat_request "s1" "hello") (answering (VStr "ok")) initial).1.
Proof.
  apply (handler_state_is_the_store (chat_request "s1" "hello") (answering (VStr "ok"))
           (World ∅ [KvGet "session:s9"] [("Chat error", SyntaxError)]) initial).
  reflexivity.
Defined.

(** X23. A request that is not answered 200, for whatever reason, leaves
    no trace for the requests that follow: any later request gets the
    answer, and leaves the store, it would have got and left had the failed
    request never been made. A failed turn can be retried as it is. *)
Theorem failed_request_leaves_no_trace failed env0 w r0 request env :
  (handleChat failed env0 w).1 = inr r0 ->
  status r0 <> 200 ->
  (handleChat request env (handleChat failed env0 w).2).1 = (handleChat request env w).1 /\
  kv (handleChat request env (handleChat failed env0 w).2).2
  = kv (handleChat request env w).2.
Proof.
  intros Hr0 Hstatus.
  assert (kv (handleChat failed env0 w).2 = kv w) as Hkv.
  { apply (store_unchanged_unless_ok failed env0 w r0); [|done].
    destruct (handleChat failed env0 w) as [r' w']. simpl in Hr0. by subst r'. }
  destruct (handleChat_store_only request env _ _ Hkv) as (H1 & H2 & _). by split.
Qed.

Lemma failed_request_leaves_no_trace_witness :
  (handleChat (chat_request "s1" "hello") (answering (VStr "ok"))
     (handleChat (chat_request "s1" "hello") failing initial).2).1
  = (handleChat (chat_request "s1" "hello") (answering (VStr "ok")) initial).1.
Proof.
  apply (proj1 (failed_request_leaves_no_trace (chat_request "s1" "hello") failing initial
                  internal_error (chat_request "s1" "hello") (answering (VStr "ok"))
                  eq_refl ltac:(discriminate))).
Defined.
